(** * The khata ledger server: balance accounting over the SQLite store

    A shallow embedding of the Express handlers of the server file
    (the three tables, [POST /api/customers], [POST /api/transactions],
    [POST /api/reminders], [GET /api/summary] and the three list routes),
    of the parts of the client that compute on their responses (the search
    filter, the pending count, the bodies the three forms post), and the
    properties of the balance-accounting rule.

    Conventions of the model.
    - A field of [req.body] is an [option]: [None] stands for a field that
      is [null] or missing, both of which the store receives as SQL NULL.
      A field that is there has the type the client gives it: a string,
      and a number for [amount].
    - The REAL columns hold binary64 numbers.  The store model carries an
      amount as an exact integer, which is what the doubles compute as
      long as no addition rounds; what a property needs beyond that is
      stated on the doubles themselves ([real_iGet], [real_theyGet],
      [exact_upto] below).
    - The store enforces what the [CREATE TABLE] statements declare:
      NOT NULL, PRIMARY KEY (a TEXT primary key accepts NULL, and NULLs
      never collide), column defaults and FOREIGN KEY.  The driver opens
      its connections with foreign keys enforced and the source never
      turns them off, so the server runs at [fk = true]; the statements
      keep the setting as a parameter [fk], and a theorem that does not
      need it holds for both values.
    - A statement can also fail for a reason outside the schema (disk full,
      I/O error).  The oracle [io : nat -> bool] says, for the n-th write
      statement of a request, whether it does. *)

From Stdlib Require Import ZArith List String Ascii Bool Lia.
From Stdlib Require Import Sorting.Sorted Sorting.Permutation.
From Stdlib Require Import PrimFloat.
Import ListNotations.
Open Scope string_scope.
Open Scope Z_scope.

(** ** Tables *)

Module Customer.
(** [customers (id TEXT PRIMARY KEY, name TEXT NOT NULL, phone TEXT,
     balance REAL DEFAULT 0, type TEXT DEFAULT 'CUSTOMER',
     lastTransactionDate TEXT)] *)
Record row : Type := mk {
  id : option string;
  name : string;
  phone : option string;
  balance : Z;
  type : option string;
  lastTransactionDate : option string
}.

(** [{ id, name, phone, type } = req.body] *)
Record body : Type := mkBody {
  b_id : option string;
  b_name : option string;
  b_phone : option string;
  b_type : option string
}.
End Customer.

Module Transaction.
(** [transactions (id TEXT PRIMARY KEY, type TEXT NOT NULL,
     amount REAL NOT NULL, date TEXT NOT NULL, note TEXT,
     customerId TEXT, FOREIGN KEY(customerId) REFERENCES customers(id))] *)
Record row : Type := mk {
  id : option string;
  type : string;
  amount : Z;
  date : string;
  note : option string;
  customerId : option string
}.

(** [{ id, type, amount, date, note, customerId } = req.body] *)
Record body : Type := mkBody {
  b_id : option string;
  b_type : option string;
  b_amount : option Z;
  b_date : option string;
  b_note : option string;
  b_customerId : option string
}.
End Transaction.

Module Reminder.
(** [reminders (id TEXT PRIMARY KEY, title TEXT NOT NULL,
     date TEXT NOT NULL, amount REAL, type TEXT NOT NULL,
     status TEXT DEFAULT 'UPCOMING', customerId TEXT,
     FOREIGN KEY(customerId) REFERENCES customers(id))] *)
Record row : Type := mk {
  id : option string;
  title : string;
  date : string;
  amount : option Z;
  type : string;
  status : option string;
  customerId : option string
}.

(** [{ id, title, date, amount, type, customerId } = req.body] *)
Record body : Type := mkBody {
  b_id : option string;
  b_title : option string;
  b_date : option string;
  b_amount : option Z;
  b_type : option string;
  b_customerId : option string
}.
End Reminder.

(** The database file: the three tables, rows in insertion order. *)
Record db : Type := mkDb {
  customers : list Customer.row;
  transactions : list Transaction.row;
  reminders : list Reminder.row
}.

Definition empty_db : db := mkDb [] [] [].

(** ** Exceptions and the store monad *)

Inductive sqlite_code : Type :=
| SQLITE_CONSTRAINT_NOTNULL
| SQLITE_CONSTRAINT_PRIMARYKEY
| SQLITE_CONSTRAINT_FOREIGNKEY
| SQLITE_IOERR.

(** What a statement throws: the driver's [SqliteError] with its code. *)
Inductive exn : Type :=
| SqliteError (code : sqlite_code).

(** The [name] property of the thrown object. *)
Definition exn_name (e : exn) : string :=
  match e with SqliteError _ => "SqliteError" end.

(** A computation against the store: it ends in a value or a thrown
    exception, and in both cases leaves a store behind. *)
Definition M (A : Type) : Type := db -> (exn + A) * db.

Definition ret {A} (a : A) : M A := fun d => (inr a, d).

Definition bind {A B} (m : M A) (k : A -> M B) : M B :=
  fun d =>
    match m d with
    | (inl e, d1) => (inl e, d1)
    | (inr a, d1) => k a d1
    end.

Declare Scope store_scope.
Delimit Scope store_scope with store.
Notation "x <- m ;; k" := (bind m (fun x => k))
  (at level 100, m at next level, right associativity) : store_scope.
Notation "m ;; k" := (bind m (fun _ => k))
  (at level 100, right associativity) : store_scope.

(** [db.transaction(fn)]: BEGIN, run [fn], COMMIT; when [fn] throws,
    ROLLBACK to the store as it was at BEGIN and rethrow. *)
Definition db_transaction {A} (fn : M A) : M A :=
  fun d =>
    match fn d with
    | (inl e, _) => (inl e, d)
    | (inr a, d1) => (inr a, d1)
    end.

(** ** SQL and JavaScript values *)

(** SQL [=] on nullable TEXT: a NULL operand never compares equal. *)
Definition sql_eq (a b : option string) : bool :=
  match a, b with
  | Some x, Some y => String.eqb x y
  | _, _ => false
  end.

(** JavaScript [x === 'literal'] for a field that is a string or null. *)
Definition strict_eq (x : option string) (lit : string) : bool :=
  match x with
  | Some s => String.eqb s lit
  | None => false
  end.

(** JavaScript truthiness of a field that is a string or null:
    null, undefined and the empty string are falsy. *)
Definition truthy (x : option string) : bool :=
  match x with
  | Some s => negb (String.eqb s "")
  | None => false
  end.

(** The primary-key index rejects a key that some row already has. *)
Definition pk_taken (key : option string) (keys : list (option string)) : bool :=
  existsb (sql_eq key) keys.

(** The foreign key [customerId REFERENCES customers(id)]: a NULL child
    key is not checked, any other must be the id of a customer. *)
Definition fk_dangling (customerId : option string) (cs : list Customer.row) : bool :=
  match customerId with
  | None => false
  | Some _ => negb (existsb (fun c => sql_eq (Customer.id c) customerId) cs)
  end.

(** ** Statements *)

(** [INSERT INTO customers (id, name, phone, type, balance)
     VALUES (?, ?, ?, ?, 0)] *)
Definition insert_customer (io_fails : bool)
    (id name phone type : option string) : M unit :=
  fun d =>
    if io_fails then (inl (SqliteError SQLITE_IOERR), d) else
    match name with
    | None => (inl (SqliteError SQLITE_CONSTRAINT_NOTNULL), d)
    | Some nm =>
        if pk_taken id (map Customer.id (customers d))
        then (inl (SqliteError SQLITE_CONSTRAINT_PRIMARYKEY), d)
        else (inr tt,
              mkDb (customers d ++ [Customer.mk id nm phone 0 type None])
                   (transactions d) (reminders d))
    end.

(** [INSERT INTO transactions (id, type, amount, date, note, customerId)
     VALUES (?, ?, ?, ?, ?, ?)] *)
Definition insert_transaction (fk io_fails : bool)
    (id type : option string) (amount : option Z)
    (date note customerId : option string) : M unit :=
  fun d =>
    if io_fails then (inl (SqliteError SQLITE_IOERR), d) else
    match type, amount, date with
    | Some ty, Some a, Some dt =>
        if pk_taken id (map Transaction.id (transactions d))
        then (inl (SqliteError SQLITE_CONSTRAINT_PRIMARYKEY), d)
        else if fk && fk_dangling customerId (customers d)
        then (inl (SqliteError SQLITE_CONSTRAINT_FOREIGNKEY), d)
        else (inr tt,
              mkDb (customers d)
                   (transactions d ++ [Transaction.mk id ty a dt note customerId])
                   (reminders d))
    | _, _, _ => (inl (SqliteError SQLITE_CONSTRAINT_NOTNULL), d)
    end.

(** The SET clause of the UPDATE below, on one row: [balance + ?] on the
    integers of the model, which is the addition of the doubles of the REAL
    column as long as it does not round. *)
Definition set_balance (balanceChange : Z) (date : option string)
    (c : Customer.row) : Customer.row :=
  Customer.mk (Customer.id c) (Customer.name c) (Customer.phone c)
              (Customer.balance c + balanceChange)
              (Customer.type c) date.

(** [UPDATE customers SET balance = balance + ?, lastTransactionDate = ?
     WHERE id = ?] *)
Definition update_customer (io_fails : bool) (balanceChange : Z)
    (date customerId : option string) : M unit :=
  fun d =>
    if io_fails then (inl (SqliteError SQLITE_IOERR), d) else
    (inr tt,
     mkDb (map (fun c => if sql_eq (Customer.id c) customerId
                         then set_balance balanceChange date c else c)
               (customers d))
          (transactions d) (reminders d)).

(** [INSERT INTO reminders (id, title, date, amount, type, customerId)
     VALUES (?, ?, ?, ?, ?, ?)]: no status is supplied, the column takes
    its DEFAULT. *)
Definition insert_reminder (fk io_fails : bool)
    (id title date : option string) (amount : option Z)
    (type customerId : option string) : M unit :=
  fun d =>
    if io_fails then (inl (SqliteError SQLITE_IOERR), d) else
    match title, date, type with
    | Some tl, Some dt, Some ty =>
        if pk_taken id (map Reminder.id (reminders d))
        then (inl (SqliteError SQLITE_CONSTRAINT_PRIMARYKEY), d)
        else if fk && fk_dangling customerId (customers d)
        then (inl (SqliteError SQLITE_CONSTRAINT_FOREIGNKEY), d)
        else (inr tt,
              mkDb (customers d) (transactions d)
                   (reminders d ++
                    [Reminder.mk id tl dt amount ty (Some "UPCOMING") customerId]))
    | _, _, _ => (inl (SqliteError SQLITE_CONSTRAINT_NOTNULL), d)
    end.

(** ** Handlers *)

(** JavaScript's numeric value of the [amount] field.  The UPDATE is
    reached only after the INSERT accepted [amount] as NOT NULL, so the
    [None] case is never bound. *)
Definition to_number (amount : option Z) : Z :=
  match amount with Some a => a | None => 0 end.

(** The four assignments to [balanceChange], in the order of the source:
    [let balanceChange = 0; if (type === 'GIVE_CREDIT') balanceChange = amount; ...] *)
Definition balanceChange (type : option string) (amount : option Z) : Z :=
  let balanceChange := 0 in
  let balanceChange :=
    if strict_eq type "GIVE_CREDIT" then to_number amount else balanceChange in
  let balanceChange :=
    if strict_eq type "TAKE_CREDIT" then - to_number amount else balanceChange in
  let balanceChange :=
    if strict_eq type "PAYMENT_RECEIVED" then - to_number amount else balanceChange in
  let balanceChange :=
    if strict_eq type "PAYMENT_MADE" then to_number amount else balanceChange in
  balanceChange.

(** The arrow function handed to [db.transaction]:
    [() => { INSERT ...; if (customerId) { balanceChange ...; UPDATE ... } }] *)
Definition insertTransaction_fn (fk : bool) (io : nat -> bool)
    (b : Transaction.body) : M unit :=
  (insert_transaction fk (io 0%nat)
     (Transaction.b_id b) (Transaction.b_type b) (Transaction.b_amount b)
     (Transaction.b_date b) (Transaction.b_note b) (Transaction.b_customerId b) ;;
   if truthy (Transaction.b_customerId b)
   then update_customer (io 1%nat)
          (balanceChange (Transaction.b_type b) (Transaction.b_amount b))
          (Transaction.b_date b) (Transaction.b_customerId b)
   else ret tt)%store.

(** [const insertTransaction = db.transaction(() => { ... })] *)
Definition insertTransaction (fk : bool) (io : nat -> bool)
    (b : Transaction.body) : M unit :=
  db_transaction (insertTransaction_fn fk io b).

(** [app.post("/api/transactions", ...)]: the status of the response, or
    the exception that leaves the handler. *)
Definition post_transactions (fk : bool) (io : nat -> bool)
    (b : Transaction.body) : M nat :=
  (insertTransaction fk io b ;; ret 201%nat)%store.

(** [app.post("/api/customers", ...)] *)
Definition post_customers (io : nat -> bool) (b : Customer.body) : M nat :=
  (insert_customer (io 0%nat)
     (Customer.b_id b) (Customer.b_name b) (Customer.b_phone b) (Customer.b_type b) ;;
   ret 201%nat)%store.

(** [app.post("/api/reminders", ...)] *)
Definition post_reminders (fk : bool) (io : nat -> bool)
    (b : Reminder.body) : M nat :=
  (insert_reminder fk (io 0%nat)
     (Reminder.b_id b) (Reminder.b_title b) (Reminder.b_date b)
     (Reminder.b_amount b) (Reminder.b_type b) (Reminder.b_customerId b) ;;
   ret 201%nat)%store.

(** ** The summary *)

(** SQL [SUM]: NULL over no rows, otherwise the values added in row
    order; on exact integers here, on doubles in [real_sum] below. *)
Definition sql_sum (xs : list Z) : option Z :=
  match xs with
  | [] => None
  | _ :: _ => Some (fold_left Z.add xs 0)
  end.

(** [row?.total || 0]: a null total and a total of 0 both give 0. *)
Definition or_zero (total : option Z) : Z :=
  match total with
  | Some t => if t =? 0 then 0 else t
  | None => 0
  end.

Record summary : Type := mkSummary {
  todayExpense : Z;
  iGet : Z;
  theyGet : Z
}.

(** [app.get("/api/summary", ...)]; [today] is the server's
    [new Date().toISOString().split('T')[0]]. *)
Definition get_summary (today : string) (d : db) : summary :=
  let expenses :=
    sql_sum (map Transaction.amount
               (filter (fun t => String.eqb (Transaction.type t) "EXPENSE"
                                 && String.eqb (Transaction.date t) today)
                       (transactions d))) in
  let iGet :=
    sql_sum (map Customer.balance
               (filter (fun c => 0 <? Customer.balance c) (customers d))) in
  let theyGet :=
    sql_sum (map (fun c => Z.abs (Customer.balance c))
               (filter (fun c => Customer.balance c <? 0) (customers d))) in
  mkSummary (or_zero expenses) (or_zero iGet) (or_zero theyGet).

(** ** The summary on binary64 *)

(** SQL [SUM] over a REAL column: NULL over no rows, otherwise the doubles
    added in row order. *)
Definition real_sum (xs : list float) : option float :=
  match xs with
  | [] => None
  | _ :: _ => Some (fold_left PrimFloat.add xs 0%float)
  end.

(** [row?.total || 0] on a double: null, 0, -0 and NaN give 0. *)
Definition real_or_zero (total : option float) : float :=
  match total with
  | Some t => if PrimFloat.eqb t 0%float || negb (PrimFloat.eqb t t)
              then 0%float else t
  | None => 0%float
  end.

(** [SELECT SUM(balance) ... WHERE balance > 0] and
    [SELECT SUM(ABS(balance)) ... WHERE balance < 0], then [|| 0], on the
    balance column as it is stored. *)
Definition real_iGet (balances : list float) : float :=
  real_or_zero
    (real_sum (filter (fun b => PrimFloat.ltb 0%float b) balances)).

Definition real_theyGet (balances : list float) : float :=
  real_or_zero
    (real_sum (map PrimFloat.abs
                 (filter (fun b => PrimFloat.ltb b 0%float) balances))).

(** The double of a whole number, built from its binary digits. *)
Fixpoint real_of_pos (p : positive) : float :=
  match p with
  | xH => 1%float
  | xO q => PrimFloat.mul 2%float (real_of_pos q)
  | xI q => PrimFloat.add (PrimFloat.mul 2%float (real_of_pos q)) 1%float
  end.

Definition real (z : Z) : float :=
  match z with
  | Z0 => 0%float
  | Zpos p => real_of_pos p
  | Zneg p => PrimFloat.opp (real_of_pos p)
  end.

(** Binary64 arithmetic does not round on whole numbers up to [B]: sums
    and differences that stay within the bound are exact, and the absolute
    value and the comparisons with 0 are those of the integers. *)
Definition exact_upto (B : Z) : Prop :=
  (forall a b, Z.abs a <= B -> Z.abs b <= B -> Z.abs (a + b) <= B ->
     PrimFloat.add (real a) (real b) = real (a + b)) /\
  (forall a b, Z.abs a <= B -> Z.abs b <= B -> Z.abs (a - b) <= B ->
     PrimFloat.sub (real a) (real b) = real (a - b)) /\
  (forall a, Z.abs a <= B ->
     PrimFloat.abs (real a) = real (Z.abs a) /\
     PrimFloat.ltb 0%float (real a) = (0 <? a) /\
     PrimFloat.ltb (real a) 0%float = (a <? 0) /\
     PrimFloat.eqb (real a) 0%float = (a =? 0) /\
     PrimFloat.eqb (real a) (real a) = true).

(** ** Requests and runs of the server *)

(** The routes that write to the store; every GET route only runs SELECT
    statements. *)
Inductive request : Type :=
| POST_customers (b : Customer.body)
| POST_transactions (b : Transaction.body)
| POST_reminders (b : Reminder.body).

Definition handle (fk : bool) (io : nat -> bool) (rq : request) : M nat :=
  match rq with
  | POST_customers b => post_customers io b
  | POST_transactions b => post_transactions fk io b
  | POST_reminders b => post_reminders fk io b
  end.

(** A request together with the I/O faults that meet its statements. *)
Definition event : Type := (request * (nat -> bool))%type.

(** The store after the server has answered the events, oldest first. *)
Fixpoint run (fk : bool) (evs : list event) (d : db) : db :=
  match evs with
  | [] => d
  | (rq, io) :: rest => run fk rest (snd (handle fk io rq d))
  end.

(** No statement meets an I/O fault. *)
Definition no_io : nat -> bool := fun _ => false.

(** ** The sign-convention table of the specification *)

Inductive TransactionType : Type :=
| GIVE_CREDIT | TAKE_CREDIT | EXPENSE | PAYMENT_RECEIVED | PAYMENT_MADE.

Definition parse_TransactionType (s : string) : option TransactionType :=
  if String.eqb s "GIVE_CREDIT" then Some GIVE_CREDIT
  else if String.eqb s "TAKE_CREDIT" then Some TAKE_CREDIT
  else if String.eqb s "EXPENSE" then Some EXPENSE
  else if String.eqb s "PAYMENT_RECEIVED" then Some PAYMENT_RECEIVED
  else if String.eqb s "PAYMENT_MADE" then Some PAYMENT_MADE
  else None.

(** The table, row by row; a type outside the table has delta 0. *)
Definition spec_delta (type : string) (amount : Z) : Z :=
  match parse_TransactionType type with
  | Some GIVE_CREDIT => amount
  | Some TAKE_CREDIT => - amount
  | Some PAYMENT_RECEIVED => - amount
  | Some PAYMENT_MADE => amount
  | Some EXPENSE => 0
  | None => 0
  end.

(** The sum of [f] over a list, folded in list order from 0. *)
Definition sum_by {A} (f : A -> Z) (l : list A) : Z :=
  fold_left (fun acc x => acc + f x) l 0.




(** The outcome is a failure whose exception carries the given name. *)
Definition fails_with {A} (name : string) (res : exn + A) : Prop :=
  exists e, res = inl e /\ exn_name e = name.

(** The row that a transaction request asks to record. *)
Definition row_of (b : Transaction.body) (ty : string) (a : Z) (dt : string)
  : Transaction.row :=
  Transaction.mk (Transaction.b_id b) ty a dt
                 (Transaction.b_note b) (Transaction.b_customerId b).

(** What the UPDATE of the handler does to the customers table, written
    out: the customer with the given id gets the delta and the date. *)
Definition credited (cid : string) (delta : Z) (date : string)
    (cs : list Customer.row) : list Customer.row :=
  map (fun c => if sql_eq (Customer.id c) (Some cid)
                then Customer.mk (Customer.id c) (Customer.name c)
                       (Customer.phone c) (Customer.balance c + delta)
                       (Customer.type c) (Some date)
                else c) cs.

(** ** The list routes *)

(** ORDER BY on a TEXT column compares bytes ([String.leb]); rows whose
    keys are equal stay in insertion order here, an order SQL leaves open
    and no theorem below depends on. *)
Fixpoint insert_row {A} (le : A -> A -> bool) (x : A) (l : list A) : list A :=
  match l with
  | [] => [x]
  | y :: l' => if le x y then x :: l else y :: insert_row le x l'
  end.

Definition order_by {A} (le : A -> A -> bool) (l : list A) : list A :=
  fold_right (insert_row le) [] l.

Definition by_name (a b : Customer.row) : bool :=
  String.leb (Customer.name a) (Customer.name b).

Definition by_date_desc (a b : Transaction.row) : bool :=
  String.leb (Transaction.date b) (Transaction.date a).

Definition by_date (a b : Reminder.row) : bool :=
  String.leb (Reminder.date a) (Reminder.date b).

(** [app.get("/api/customers")]:
    [SELECT * FROM customers ORDER BY name ASC] *)
Definition get_customers (d : db) : list Customer.row :=
  order_by by_name (customers d).

(** [app.get("/api/transactions")]:
    [SELECT * FROM transactions ORDER BY date DESC LIMIT 50] *)
Definition get_transactions (d : db) : list Transaction.row :=
  firstn 50 (order_by by_date_desc (transactions d)).

(** [app.get("/api/reminders")]:
    [SELECT * FROM reminders ORDER BY date ASC] *)
Definition get_reminders (d : db) : list Reminder.row :=
  order_by by_date (reminders d).

(** ** The client *)

(** [s.includes(sub)]: [sub] occurs in [s]. *)
Fixpoint includes (s sub : string) : bool :=
  String.prefix sub s ||
  match s with
  | EmptyString => false
  | String _ s' => includes s' sub
  end.

(** [filteredCustomers]:
    [customers.filter(c => c.name.toLowerCase().includes(searchQuery.toLowerCase())
                           || (c.phone && c.phone.includes(searchQuery)))];
    [toLowerCase] is the built-in of the JavaScript engine. *)
Definition filteredCustomers (toLowerCase : string -> string)
    (searchQuery : string) (customers : list Customer.row) : list Customer.row :=
  filter (fun c =>
            includes (toLowerCase (Customer.name c)) (toLowerCase searchQuery)
            || match Customer.phone c with
               | Some p => negb (String.eqb p "") && includes p searchQuery
               | None => false
               end)
         customers.

(** The header of the reminders tab:
    [reminders.filter(r => r.status !== 'COMPLETED').length] *)
Definition pending_reminders (reminders : list Reminder.row) : nat :=
  List.length (filter (fun r => negb (strict_eq (Reminder.status r) "COMPLETED"))
                      reminders).

(** *** The forms *)

Module NewCustomer.
(** [useState({ name: '', phone: '', type: 'CUSTOMER' })] *)
Record t : Type := mk { name : string; phone : string; type : string }.
End NewCustomer.

Module NewTransaction.
(** [useState({ amount: '', note: '', date: ... })] *)
Record t : Type := mk { amount : string; note : string; date : string }.
End NewTransaction.

Module ShowAddTransaction.
(** [useState<{show: boolean, type: TransactionType | null, customerId?: string}>] *)
Record t : Type := mk { show : bool; type : option string; customerId : option string }.
End ShowAddTransaction.

Module NewReminder.
(** [useState({ title: '', date: ..., amount: '', type: 'COLLECTION' })] *)
Record t : Type := mk { title : string; date : string; amount : string; type : string }.
End NewReminder.

(** The body that [handleAddCustomer] posts, [None] when it returns before
    the fetch; [id] is [Math.random().toString(36).substr(2, 9)]. *)
Definition handleAddCustomer (id : string) (newCustomer : NewCustomer.t)
  : option Customer.body :=
  if String.eqb (NewCustomer.name newCustomer) "" then None
  else Some (Customer.mkBody (Some id)
               (Some (NewCustomer.name newCustomer))
               (Some (NewCustomer.phone newCustomer))
               (Some (NewCustomer.type newCustomer))).

(** The body that [handleAddTransaction] posts.  [parseFloat] is the
    engine's built-in, [None] standing for NaN, which JSON carries as null;
    a customerId that is undefined is left out of the JSON. *)
Definition handleAddTransaction (parseFloat : string -> option Z) (id : string)
    (showAddTransaction : ShowAddTransaction.t)
    (newTransaction : NewTransaction.t) : option Transaction.body :=
  if String.eqb (NewTransaction.amount newTransaction) ""
     || negb (truthy (ShowAddTransaction.type showAddTransaction))
  then None
  else Some (Transaction.mkBody (Some id)
               (ShowAddTransaction.type showAddTransaction)
               (parseFloat (NewTransaction.amount newTransaction))
               (Some (NewTransaction.date newTransaction))
               (Some (NewTransaction.note newTransaction))
               (ShowAddTransaction.customerId showAddTransaction)).

(** The body that [handleAddReminder] posts:
    [amount: newReminder.amount ? parseFloat(newReminder.amount) : undefined],
    and no customerId. *)
Definition handleAddReminder (parseFloat : string -> option Z) (id : string)
    (newReminder : NewReminder.t) : option Reminder.body :=
  if String.eqb (NewReminder.title newReminder) "" then None
  else Some (Reminder.mkBody (Some id)
               (Some (NewReminder.title newReminder))
               (Some (NewReminder.date newReminder))
               (if String.eqb (NewReminder.amount newReminder) "" then None
                else parseFloat (NewReminder.amount newReminder))
               (Some (NewReminder.type newReminder))
               None).

(** ** Keys *)

(** The keys of a column that are not NULL. *)
Fixpoint non_null (keys : list (option string)) : list string :=
  match keys with
  | [] => []
  | Some k :: rest => k :: non_null rest
  | None :: rest => non_null rest
  end.

(** No two rows of a table share a key: what PRIMARY KEY promises. *)
Definition primary_keys_unique (d : db) : Prop :=
  NoDup (non_null (map Customer.id (customers d))) /\
  NoDup (non_null (map Transaction.id (transactions d))) /\
  NoDup (non_null (map Reminder.id (reminders d))).

(** Every customerId of a transaction or reminder names a customer: what
    FOREIGN KEY promises. *)
Definition references_resolve (d : db) : Prop :=
  (forall t, In t (transactions d) ->
     fk_dangling (Transaction.customerId t) (customers d) = false) /\
  (forall r, In r (reminders d) ->
     fk_dangling (Reminder.customerId r) (customers d) = false).


(** [toLowerCase] on the letters A to Z; a stand-in for the engine's
    built-in where an example needs one. *)
Fixpoint lower_ascii (s : string) : string :=
  match s with
  | EmptyString => EmptyString
  | String c s' =>
      let n := nat_of_ascii c in
      String (if (65 <=? n)%nat && (n <=? 90)%nat then ascii_of_nat (n + 32) else c)
             (lower_ascii s')
  end.

(** ** Sample stores, requests and runs *)

Definition alice : Customer.row :=
  Customer.mk (Some "c1") "Alice" None 0 (Some "CUSTOMER") None.

Definition db_alice : db := mkDb [alice] [] [].

Definition tx (id type : string) (amount : Z) (date : string)
    (customerId : option string) : Transaction.body :=
  Transaction.mkBody (Some id) (Some type) (Some amount) (Some date) None customerId.

Definition db_alice_t1 : db :=
  snd (post_transactions false no_io
         (tx "t1" "GIVE_CREDIT" 100 "2024-01-02" (Some "c1")) db_alice).


Definition bob : Customer.body :=
  Customer.mkBody (Some "c1") (Some "Bob") None (Some "SUPPLIER").

Definition carol : Customer.body :=
  Customer.mkBody (Some "c2") (Some "Carol") (Some "01700") (Some "CUSTOMER").


(** A customer, a credit of 100 and a payment of 40 received. *)
Definition run_give_receive : list event :=
  [(POST_customers bob, no_io);
   (POST_transactions (tx "t1" "GIVE_CREDIT" 100 "2024-01-02" (Some "c1")), no_io);
   (POST_transactions (tx "t2" "PAYMENT_RECEIVED" 40 "2024-01-03" (Some "c1")), no_io)].


(** The store that holds one customer, whose id is the empty string. *)
Definition shop_row : Customer.row :=
  Customer.mk (Some "") "Shop" None 0 None None.

Definition db_shop : db := mkDb [shop_row] [] [].

(** Two customers, one owing 3 and one owed 1. *)
Definition run_small : list event :=
  [(POST_customers bob, no_io);
   (POST_customers carol, no_io);
   (POST_transactions (tx "t1" "GIVE_CREDIT" 3 "2024-01-02" (Some "c1")), no_io);
   (POST_transactions (tx "t2" "TAKE_CREDIT" 1 "2024-01-03" (Some "c2")), no_io)].

(** An EXPENSE dated 2024-03-01, then a payment dated 2023-12-31. *)
Definition db_alice_expense : db :=
  snd (post_transactions true no_io
         (tx "t1" "EXPENSE" 9 "2024-03-01" (Some "c1")) db_alice).

Definition db_alice_backdated : db :=
  snd (post_transactions true no_io
         (tx "t2" "PAYMENT_MADE" 4 "2023-12-31" (Some "c1")) db_alice_expense).

Definition collect : Reminder.body :=
  Reminder.mkBody (Some "r1") (Some "Collect from Alice") (Some "2024-02-01")
                  (Some 250) (Some "COLLECTION") (Some "c1").

(** ** Sums *)

Lemma fold_add_shift {A} (f : A -> Z) (l : list A) (a : Z) :
  fold_left (fun acc x => acc + f x) l a = a + sum_by f l.
Proof.
  unfold sum_by. revert a.
  induction l as [|x l IH]; intros a; simpl.
  - lia.
  - rewrite IH, (IH (f x)). lia.
Qed.

Lemma sum_by_cons {A} (f : A -> Z) (x : A) (l : list A) :
  sum_by f (x :: l) = f x + sum_by f l.
Proof. unfold sum_by at 1. simpl. rewrite fold_add_shift. lia. Qed.


Lemma fold_add_map {A} (f : A -> Z) (l : list A) :
  fold_left Z.add (map f l) 0 = sum_by f l.
Proof.
  unfold sum_by. generalize 0.
  induction l as [|x l IH]; intros a; simpl; [reflexivity | apply IH].
Qed.

Lemma or_zero_sql_sum (xs : list Z) :
  or_zero (sql_sum xs) = fold_left Z.add xs 0.
Proof.
  destruct xs as [|x xs]; [reflexivity|].
  unfold sql_sum, or_zero.
  destruct (Z.eqb_spec (fold_left Z.add (x :: xs) 0) 0) as [E|E]; congruence.
Qed.

(** ** The sign rule of the handler is the table *)

Lemma balanceChange_table (ty : string) (a : Z) :
  balanceChange (Some ty) (Some a) = spec_delta ty a.
Proof.
  unfold balanceChange, spec_delta, parse_TransactionType, strict_eq, to_number.
  destruct (String.eqb_spec ty "GIVE_CREDIT") as [->|_]; [reflexivity|].
  destruct (String.eqb_spec ty "TAKE_CREDIT") as [->|_]; [reflexivity|].
  destruct (String.eqb_spec ty "EXPENSE") as [->|_]; [reflexivity|].
  destruct (String.eqb_spec ty "PAYMENT_RECEIVED") as [->|_]; [reflexivity|].
  destruct (String.eqb_spec ty "PAYMENT_MADE") as [->|_]; reflexivity.
Qed.

(** ** SQL equality and keys *)

Lemma sql_eq_true (a b : option string) :
  sql_eq a b = true <-> exists s, a = Some s /\ b = Some s.
Proof.
  destruct a as [x|], b as [y|]; simpl; split; try discriminate.
  - intros H. apply String.eqb_eq in H. subst. eauto.
  - intros (s & Ha & Hb). inversion Ha; inversion Hb; subst. apply String.eqb_refl.
  - intros (s & _ & H). discriminate.
  - intros (s & H & _). discriminate.
  - intros (s & H & _). discriminate.
Qed.


Lemma pk_taken_In (key : string) (keys : list (option string)) :
  pk_taken (Some key) keys = true <-> In (Some key) keys.
Proof.
  unfold pk_taken. rewrite existsb_exists. split.
  - intros (k & Hin & Heq). apply sql_eq_true in Heq.
    destruct Heq as (s & E1 & E2). inversion E1; subst. exact Hin.
  - intros Hin. exists (Some key). split; [exact Hin|]. simpl. apply String.eqb_refl.
Qed.

Lemma filter_none {A} (f : A -> bool) (l : list A) :
  (forall x, In x l -> f x = false) -> filter f l = [].
Proof.
  induction l as [|x l IH]; intros H; simpl; [reflexivity|].
  rewrite (H x (or_introl eq_refl)). apply IH. intros y Hy. apply H. now right.
Qed.

(** ** What each handler returns *)

Ltac unfold_store :=
  unfold post_transactions, post_customers, post_reminders,
         insertTransaction, db_transaction, insertTransaction_fn,
         insert_transaction, insert_customer, insert_reminder,
         update_customer, bind, ret, row_of, credited, set_balance.

(** A transaction request that the store accepts is answered 201, with the
    row appended and, when the link is truthy, the customer credited. *)
Lemma post_transactions_accepts fk io b d ty a dt :
  Transaction.b_type b = Some ty ->
  Transaction.b_amount b = Some a ->
  Transaction.b_date b = Some dt ->
  io 0%nat = false -> io 1%nat = false ->
  pk_taken (Transaction.b_id b) (map Transaction.id (transactions d)) = false ->
  fk && fk_dangling (Transaction.b_customerId b) (customers d) = false ->
  post_transactions fk io b d =
  (inr 201%nat,
   mkDb (match Transaction.b_customerId b with
         | Some cid => if truthy (Some cid)
                       then credited cid (spec_delta ty a) dt (customers d)
                       else customers d
         | None => customers d
         end)
        (transactions d ++ [row_of b ty a dt])
        (reminders d)).
Proof.
  intros Hty Ha Hdt Hio0 Hio1 Hpk Hfk.
  unfold_store.
  rewrite Hio0, Hio1, Hty, Ha, Hdt, Hpk, Hfk.
  rewrite balanceChange_table.
  destruct (Transaction.b_customerId b) as [cid|] eqn:Hc; [|reflexivity].
  destruct (truthy (Some cid)); reflexivity.
Qed.

(** Every answer to a transaction request: an exception with the store as
    it was, or 201 with the store of [post_transactions_accepts]. *)
Lemma post_transactions_cases fk io b d :
  (exists e, post_transactions fk io b d = (inl e, d)) \/
  (exists ty a dt,
     Transaction.b_type b = Some ty /\
     Transaction.b_amount b = Some a /\
     Transaction.b_date b = Some dt /\
     pk_taken (Transaction.b_id b) (map Transaction.id (transactions d)) = false /\
     fk && fk_dangling (Transaction.b_customerId b) (customers d) = false /\
     post_transactions fk io b d =
     (inr 201%nat,
      mkDb (match Transaction.b_customerId b with
            | Some cid => if truthy (Some cid)
                          then credited cid (spec_delta ty a) dt (customers d)
                          else customers d
            | None => customers d
            end)
           (transactions d ++ [row_of b ty a dt])
           (reminders d))).
Proof.
  unfold_store.
  destruct (io 0%nat); [left; eauto|].
  destruct (Transaction.b_type b) as [ty|]; [|left; eauto].
  destruct (Transaction.b_amount b) as [a|]; [|left; eauto].
  destruct (Transaction.b_date b) as [dt|]; [|left; eauto].
  destruct (pk_taken _ _) eqn:Hpk; [left; eauto|].
  destruct (fk && fk_dangling _ _) eqn:Hfk; [left; eauto|].
  rewrite balanceChange_table.
  destruct (Transaction.b_customerId b) as [cid|] eqn:Hc.
  - destruct (truthy (Some cid)) eqn:Ht.
    + destruct (io 1%nat); [left; eauto|].
      right. exists ty, a, dt. repeat (split; [reflexivity || assumption|]).
      reflexivity.
    + right. exists ty, a, dt. repeat (split; [reflexivity || assumption|]).
      reflexivity.
  - right. exists ty, a, dt. repeat (split; [reflexivity || assumption|]).
    reflexivity.
Qed.

(** Every answer to a create-customer request. *)
Lemma post_customers_cases io b d :
  (exists e, post_customers io b d = (inl e, d)) \/
  (exists nm,
     Customer.b_name b = Some nm /\
     pk_taken (Customer.b_id b) (map Customer.id (customers d)) = false /\
     post_customers io b d =
     (inr 201%nat,
      mkDb (customers d ++
            [Customer.mk (Customer.b_id b) nm (Customer.b_phone b) 0
                         (Customer.b_type b) None])
           (transactions d) (reminders d))).
Proof.
  unfold_store.
  destruct (io 0%nat); [left; eauto|].
  destruct (Customer.b_name b) as [nm|]; [|left; eauto].
  destruct (pk_taken _ _) eqn:Hpk; [left; eauto|].
  right. exists nm. auto.
Qed.

(** Every answer to a create-reminder request. *)
Lemma post_reminders_cases fk io b d :
  (exists e, post_reminders fk io b d = (inl e, d)) \/
  (exists tl dt ty,
     Reminder.b_title b = Some tl /\
     Reminder.b_date b = Some dt /\
     Reminder.b_type b = Some ty /\
     post_reminders fk io b d =
     (inr 201%nat,
      mkDb (customers d) (transactions d)
           (reminders d ++
            [Reminder.mk (Reminder.b_id b) tl dt (Reminder.b_amount b) ty
                         (Some "UPCOMING") (Reminder.b_customerId b)]))).
Proof.
  unfold_store.
  destruct (io 0%nat); [left; eauto|].
  destruct (Reminder.b_title b) as [tl|]; [|left; eauto].
  destruct (Reminder.b_date b) as [dt|]; [|left; eauto].
  destruct (Reminder.b_type b) as [ty|]; [|left; eauto].
  destruct (pk_taken _ _); [left; eauto|].
  destruct (fk && fk_dangling _ _); [left; eauto|].
  right. exists tl, dt, ty. auto.
Qed.

(** ** The customers table under the UPDATE *)

Lemma credited_ids cid delta dt cs :
  map Customer.id (credited cid delta dt cs) = map Customer.id cs.
Proof.
  unfold credited. rewrite map_map. apply map_ext.
  intros c. destruct (sql_eq _ _); reflexivity.
Qed.

Lemma fk_dangling_ids x cs cs' :
  map Customer.id cs' = map Customer.id cs ->
  fk_dangling x cs' = fk_dangling x cs.
Proof.
  intros E. destruct x as [s|]; simpl; [|reflexivity]. f_equal.
  assert (H : forall l, existsb (fun c => sql_eq (Customer.id c) (Some s)) l
                        = existsb (fun i => sql_eq i (Some s)) (map Customer.id l)).
  { induction l as [|c l IH]; simpl; [reflexivity | now rewrite IH]. }
  now rewrite !H, E.
Qed.

Lemma fk_dangling_app x cs extra :
  fk_dangling x cs = false -> fk_dangling x (cs ++ extra) = false.
Proof.
  destruct x as [s|]; simpl; [|reflexivity].
  rewrite !negb_false_iff, existsb_app. intros ->. reflexivity.
Qed.


(** ** The log of one customer *)


(** ** The sign convention (C1) *)

Lemma truthy_nonempty (cid : string) : cid <> "" -> truthy (Some cid) = true.
Proof. intros H. simpl. apply negb_true_iff. now apply String.eqb_neq. Qed.

(** C1 as stated fails for the customerId that is the empty string.  The
    customer with id "" exists, the GIVE_CREDIT of 5 for it is answered 201
    and recorded with that customerId, and the table's delta is 5; yet the
    handler's test [if (customerId)] skips the UPDATE and the customer's
    balance is still 0. *)
Lemma empty_customerId_adds_nothing :
  fk_dangling (Some "") (customers db_shop) = false /\
  spec_delta "GIVE_CREDIT" 5 = 5 /\
  post_transactions true no_io
    (tx "t1" "GIVE_CREDIT" 5 "2024-01-02" (Some "")) db_shop
  = (inr 201%nat,
     mkDb [Customer.mk (Some "") "Shop" None 0 None None]
          [Transaction.mk (Some "t1") "GIVE_CREDIT" 5 "2024-01-02" None (Some "")]
          []).
Proof. repeat split. Qed.

(** C1, amended. A transaction request that is applied with a customerId
    that is not the empty string is answered 201, its row is appended to
    the log, and the balance of the customer with that id grows by a delta
    that is a function of the type and the amount alone: [+amount] for
    GIVE_CREDIT and PAYMENT_MADE, [-amount] for TAKE_CREDIT and
    PAYMENT_RECEIVED, 0 for EXPENSE and 0 for every type outside the five,
    whose row is recorded all the same. *)
Theorem transaction_delta_follows_table fk io d b cid ty a dt :
  Transaction.b_customerId b = Some cid ->
  cid <> "" ->
  Transaction.b_type b = Some ty ->
  Transaction.b_amount b = Some a ->
  Transaction.b_date b = Some dt ->
  io 0%nat = false -> io 1%nat = false ->
  pk_taken (Transaction.b_id b) (map Transaction.id (transactions d)) = false ->
  fk && fk_dangling (Some cid) (customers d) = false ->
  post_transactions fk io b d =
    (inr 201%nat,
     mkDb (credited cid (spec_delta ty a) dt (customers d))
          (transactions d ++ [row_of b ty a dt])
          (reminders d)) /\
  (ty = "GIVE_CREDIT" -> spec_delta ty a = a) /\
  (ty = "TAKE_CREDIT" -> spec_delta ty a = - a) /\
  (ty = "PAYMENT_RECEIVED" -> spec_delta ty a = - a) /\
  (ty = "PAYMENT_MADE" -> spec_delta ty a = a) /\
  (ty = "EXPENSE" -> spec_delta ty a = 0) /\
  (parse_TransactionType ty = None -> spec_delta ty a = 0).
Proof.
  intros Hc Hne Hty Ha Hdt Hio0 Hio1 Hpk Hfk.
  pose proof (truthy_nonempty cid Hne) as Ht.
  split.
  - rewrite (post_transactions_accepts fk io b d ty a dt) by (rewrite ?Hc; assumption).
    rewrite Hc, Ht. reflexivity.
  - repeat split; intros E; try (rewrite E; reflexivity).
    unfold spec_delta. rewrite E. reflexivity.
Qed.

Lemma transaction_delta_follows_table_witness :
  post_transactions true no_io (tx "t1" "REFUND" 7 "2024-01-02" (Some "c1")) db_alice =
    (inr 201%nat,
     mkDb [Customer.mk (Some "c1") "Alice" None 0 (Some "CUSTOMER") (Some "2024-01-02")]
          [Transaction.mk (Some "t1") "REFUND" 7 "2024-01-02" None (Some "c1")]
          []).
Proof.
  apply (transaction_delta_follows_table true no_io db_alice
           (tx "t1" "REFUND" 7 "2024-01-02" (Some "c1"))
           "c1" "REFUND" 7 "2024-01-02"); try reflexivity.
  discriminate.
Defined.

(** The spec's own example: GIVE_CREDIT 100 on balance 0, then
    PAYMENT_RECEIVED 40, leaves balance 60. *)
Example give_100_receive_40 :
  map Customer.balance
    (customers
       (run true
          [(POST_transactions (tx "t1" "GIVE_CREDIT" 100 "2024-01-02" (Some "c1")), no_io);
           (POST_transactions (tx "t2" "PAYMENT_RECEIVED" 40 "2024-01-03" (Some "c1")), no_io)]
          db_alice)) = [60].
Proof. reflexivity. Qed.

(** ** Atomicity (C3) *)

(** Without [db.transaction] the arrow function is not atomic: when the
    UPDATE meets an I/O fault the inserted row stays. *)
Example fn_alone_leaves_the_row :
  insertTransaction_fn true (fun n => Nat.eqb n 1)
    (tx "t1" "GIVE_CREDIT" 5 "2024-01-02" (Some "c1")) db_alice =
  (inl (SqliteError SQLITE_IOERR),
   mkDb [alice]
        [Transaction.mk (Some "t1") "GIVE_CREDIT" 5 "2024-01-02" None (Some "c1")]
        []).
Proof. reflexivity. Qed.

(** C3 as stated fails for the customerId that is the empty string: the
    request names the stored customer "", its row is committed, and the
    customer's balance and lastTransactionDate are not updated with it. *)
Lemma row_committed_without_update :
  In shop_row (customers db_shop) /\
  Customer.id shop_row = Some "" /\
  Transaction.b_customerId (tx "t1" "GIVE_CREDIT" 5 "2024-01-02" (Some "")) = Some "" /\
  fst (post_transactions true no_io
         (tx "t1" "GIVE_CREDIT" 5 "2024-01-02" (Some "")) db_shop) = inr 201%nat /\
  transactions (snd (post_transactions true no_io
                       (tx "t1" "GIVE_CREDIT" 5 "2024-01-02" (Some "")) db_shop))
  = [Transaction.mk (Some "t1") "GIVE_CREDIT" 5 "2024-01-02" None (Some "")] /\
  customers (snd (post_transactions true no_io
                    (tx "t1" "GIVE_CREDIT" 5 "2024-01-02" (Some "")) db_shop))
  = customers db_shop.
Proof. repeat split. left. reflexivity. Qed.

(** C3, amended. Creating a transaction is atomic.  For every store,
    request, foreign-key setting and pattern of I/O faults, the handler
    either throws and leaves the store exactly as it was, or answers 201
    with the row appended and, when customerId is a string other than the
    empty one, the customer's balance and lastTransactionDate updated
    together; with customerId absent or empty the row alone is appended.
    There is no third outcome. *)
Theorem create_transaction_atomic fk io b d :
  (exists e, post_transactions fk io b d = (inl e, d)) \/
  (exists ty a dt,
     Transaction.b_type b = Some ty /\
     Transaction.b_amount b = Some a /\
     Transaction.b_date b = Some dt /\
     post_transactions fk io b d =
     (inr 201%nat,
      mkDb (match Transaction.b_customerId b with
            | Some cid => if String.eqb cid ""
                          then customers d
                          else credited cid (spec_delta ty a) dt (customers d)
            | None => customers d
            end)
           (transactions d ++ [row_of b ty a dt])
           (reminders d))).
Proof.
  destruct (post_transactions_cases fk io b d)
    as [H|(ty & a & dt & Hty & Ha & Hdt & _ & _ & H)]; [now left|right].
  exists ty, a, dt. repeat (split; [assumption|]).
  rewrite H. destruct (Transaction.b_customerId b) as [cid|]; [|reflexivity].
  cbn [truthy]. destruct (String.eqb cid ""); reflexivity.
Qed.

(** ** Duplicate ids (C4) *)

(** C4. A transaction request whose id is already the id of a persisted
    transaction is rejected and the store, hence every customer's balance,
    stays as it was: the delta is not applied a second time.  When nothing
    else is wrong with the request the rejection is the primary-key
    constraint. *)
Theorem duplicate_id_rejected fk io b d i :
  Transaction.b_id b = Some i ->
  In (Some i) (map Transaction.id (transactions d)) ->
  exists e,
    post_transactions fk io b d = (inl e, d) /\
    (io 0%nat = false ->
     Transaction.b_type b <> None ->
     Transaction.b_amount b <> None ->
     Transaction.b_date b <> None ->
     e = SqliteError SQLITE_CONSTRAINT_PRIMARYKEY).
Proof.
  intros Hid Hin. apply pk_taken_In in Hin.
  unfold_store. rewrite Hid, Hin.
  destruct (io 0%nat).
  - eexists. split; [reflexivity | discriminate].
  - destruct (Transaction.b_type b); [|eexists; split; [reflexivity | congruence]].
    destruct (Transaction.b_amount b); [|eexists; split; [reflexivity | congruence]].
    destruct (Transaction.b_date b); [|eexists; split; [reflexivity | congruence]].
    eexists. split; reflexivity.
Qed.

Lemma duplicate_id_rejected_witness :
  exists e,
    post_transactions false no_io
      (tx "t1" "GIVE_CREDIT" 100 "2024-01-02" (Some "c1")) db_alice_t1
    = (inl e, db_alice_t1) /\
    (no_io 0%nat = false ->
     Some "GIVE_CREDIT" <> None -> Some 100 <> None -> Some "2024-01-02" <> None ->
     e = SqliteError SQLITE_CONSTRAINT_PRIMARYKEY).
Proof.
  apply (duplicate_id_rejected false no_io
           (tx "t1" "GIVE_CREDIT" 100 "2024-01-02" (Some "c1")) db_alice_t1 "t1").
  - reflexivity.
  - simpl. left. reflexivity.
Defined.

(** ** Validation (C5) *)

(** C5 as stated fails: a type outside the enum with a negative amount is
    recorded and answered 201, and a missing type is refused by the store's
    NOT NULL constraint, an exception named SqliteError. *)
Lemma malformed_transaction_is_recorded :
  post_transactions false no_io
    (Transaction.mkBody (Some "t1") (Some "REFUND") (Some (-5)) (Some "2024-01-02")
                        None None) empty_db
  = (inr 201%nat,
     mkDb [] [Transaction.mk (Some "t1") "REFUND" (-5) "2024-01-02" None None] []) /\
  post_transactions false no_io
    (Transaction.mkBody (Some "t1") None (Some 5) (Some "2024-01-02") None None)
    empty_db
  = (inl (SqliteError SQLITE_CONSTRAINT_NOTNULL), empty_db) /\
  ~ fails_with "ValidationError"
      (fst (post_transactions false no_io
              (Transaction.mkBody (Some "t1") (Some "REFUND") (Some (-5))
                                  (Some "2024-01-02") None None) empty_db)) /\
  ~ fails_with "ValidationError"
      (fst (post_transactions false no_io
              (Transaction.mkBody (Some "t1") None (Some 5) (Some "2024-01-02")
                                  None None) empty_db)).
Proof.
  repeat split.
  - intros (e & H & _). discriminate H.
  - intros (e & H & N). inversion H; subst. discriminate N.
Qed.

(** C5, amended. When the type or the amount of a transaction request is
    absent (null or missing), the request fails and nothing is persisted:
    the store as a whole is unchanged.  The failure is the store's own
    SqliteError, the NOT NULL constraint unless an I/O fault comes first;
    the handler validates nothing itself. *)
Theorem absent_type_or_amount_rejected fk io b d :
  Transaction.b_type b = None \/ Transaction.b_amount b = None ->
  exists e,
    post_transactions fk io b d = (inl e, d) /\
    exn_name e = "SqliteError" /\
    (io 0%nat = false -> e = SqliteError SQLITE_CONSTRAINT_NOTNULL).
Proof.
  intros H. unfold_store.
  destruct (io 0%nat).
  - eexists. repeat split. discriminate.
  - destruct H as [H|H]; rewrite H.
    + eexists. repeat split.
    + destruct (Transaction.b_type b); eexists; repeat split.
Qed.

Lemma absent_type_or_amount_rejected_witness :
  exists e,
    post_transactions true no_io
      (Transaction.mkBody (Some "t1") (Some "GIVE_CREDIT") None (Some "2024-01-02")
                          None (Some "c1")) db_alice
    = (inl e, db_alice) /\
    exn_name e = "SqliteError" /\
    (no_io 0%nat = false -> e = SqliteError SQLITE_CONSTRAINT_NOTNULL).
Proof.
  apply (absent_type_or_amount_rejected true no_io
           (Transaction.mkBody (Some "t1") (Some "GIVE_CREDIT") None
                               (Some "2024-01-02") None (Some "c1")) db_alice).
  right. reflexivity.
Defined.

(** ** Unknown customers (C6) *)

(** C6 as stated fails: on the empty store a transaction for the customer
    id "ghost" is refused, but by the store's foreign-key constraint, an
    exception named SqliteError; no NotFound failure exists. *)
Lemma unknown_customer_is_not_NotFound :
  fk_dangling (Some "ghost") (customers empty_db) = true /\
  post_transactions true no_io
    (tx "t1" "GIVE_CREDIT" 5 "2024-01-02" (Some "ghost")) empty_db
  = (inl (SqliteError SQLITE_CONSTRAINT_FOREIGNKEY), empty_db) /\
  exn_name (SqliteError SQLITE_CONSTRAINT_FOREIGNKEY) = "SqliteError" /\
  ~ fails_with "NotFound"
      (fst (post_transactions true no_io
              (tx "t1" "GIVE_CREDIT" 5 "2024-01-02" (Some "ghost")) empty_db)).
Proof.
  repeat split.
  intros (e & H & N). inversion H; subst. discriminate N.
Qed.

(** C6, amended. A transaction request whose customerId is present and
    names no stored customer fails and nothing is persisted: the failure is
    the store's SqliteError, the FOREIGN KEY constraint when nothing else is
    wrong with the request, not a NotFound of the handler, which makes no
    check of its own. *)
Theorem unknown_customer_refused_by_store io b d cid :
  Transaction.b_customerId b = Some cid ->
  fk_dangling (Some cid) (customers d) = true ->
  exists e,
    post_transactions true io b d = (inl e, d) /\
    exn_name e = "SqliteError" /\
    (io 0%nat = false ->
     Transaction.b_type b <> None ->
     Transaction.b_amount b <> None ->
     Transaction.b_date b <> None ->
     pk_taken (Transaction.b_id b) (map Transaction.id (transactions d)) = false ->
     e = SqliteError SQLITE_CONSTRAINT_FOREIGNKEY).
Proof.
  intros Hc Hd. unfold_store. rewrite Hc, Hd.
  destruct (io 0%nat).
  - eexists. repeat split. discriminate.
  - destruct (Transaction.b_type b);
      [|eexists; repeat split; congruence].
    destruct (Transaction.b_amount b);
      [|eexists; repeat split; congruence].
    destruct (Transaction.b_date b);
      [|eexists; repeat split; congruence].
    destruct (pk_taken _ _); eexists; repeat split; congruence.
Qed.

Lemma unknown_customer_refused_by_store_witness :
  exists e,
    post_transactions true no_io
      (tx "t1" "GIVE_CREDIT" 5 "2024-01-02" (Some "c2")) db_alice
    = (inl e, db_alice) /\
    exn_name e = "SqliteError" /\
    (no_io 0%nat = false ->
     Some "GIVE_CREDIT" <> None -> Some 5 <> None -> Some "2024-01-02" <> None ->
     pk_taken (Some "t1") (map Transaction.id (transactions db_alice)) = false ->
     e = SqliteError SQLITE_CONSTRAINT_FOREIGNKEY).
Proof.
  apply (unknown_customer_refused_by_store no_io
           (tx "t1" "GIVE_CREDIT" 5 "2024-01-02" (Some "c2")) db_alice "c2");
    reflexivity.
Defined.

(** ** The summary (C8) *)

(** An EXPENSE without customer leaves every balance as it is and adds
    its amount to today's expense. *)
Example expense_counts_today :
  get_summary "2024-01-02"
    (run true
       [(POST_customers bob, no_io);
        (POST_transactions (tx "t1" "GIVE_CREDIT" 100 "2024-01-02" (Some "c1")), no_io);
        (POST_transactions (tx "t2" "EXPENSE" 50 "2024-01-02" None), no_io);
        (POST_transactions (tx "t3" "EXPENSE" 20 "2024-01-01" None), no_io)]
       empty_db)
  = mkSummary 50 100 0.
Proof. reflexivity. Qed.

(** In exact arithmetic the receivable total minus the payable total is
    the sum of all balances. *)
Lemma exact_receivable_minus_payable today d :
  iGet (get_summary today d) - theyGet (get_summary today d)
  = sum_by Customer.balance (customers d).
Proof.
  unfold get_summary. cbn [iGet theyGet].
  rewrite !or_zero_sql_sum, !fold_add_map.
  induction (customers d) as [|c cs IH]; [reflexivity|].
  cbn [filter]. rewrite sum_by_cons.
  destruct (Z.ltb_spec 0 (Customer.balance c)), (Z.ltb_spec (Customer.balance c) 0);
    rewrite ?sum_by_cons; lia.
Qed.

(** C8. An aggregate over no rows is 0, not null and not an error: with no
    EXPENSE transaction dated today the summary's todayExpense is 0; with no
    customer of positive balance iGet is 0; with no customer of negative
    balance theyGet is 0; in particular both are 0 on an empty customers
    table. *)
Theorem empty_aggregates_are_zero today d :
  ((forall t, In t (transactions d) ->
      ~ (Transaction.type t = "EXPENSE" /\ Transaction.date t = today)) ->
   todayExpense (get_summary today d) = 0) /\
  ((forall c, In c (customers d) -> Customer.balance c <= 0) ->
   iGet (get_summary today d) = 0) /\
  ((forall c, In c (customers d) -> 0 <= Customer.balance c) ->
   theyGet (get_summary today d) = 0) /\
  (customers d = [] ->
   iGet (get_summary today d) = 0 /\ theyGet (get_summary today d) = 0).
Proof.
  unfold get_summary. cbn [todayExpense iGet theyGet].
  split; [|split; [|split]].
  - intros H. rewrite filter_none; [reflexivity|].
    intros t Ht. apply andb_false_iff.
    destruct (String.eqb_spec (Transaction.type t) "EXPENSE") as [E1|]; [|now left].
    destruct (String.eqb_spec (Transaction.date t) today) as [E2|]; [|now right].
    exfalso. apply (H t Ht). now split.
  - intros H. rewrite filter_none; [reflexivity|].
    intros c Hc. apply Z.ltb_ge. now apply H.
  - intros H. rewrite filter_none; [reflexivity|].
    intros c Hc. apply Z.ltb_ge. now apply H.
  - intros ->. split; reflexivity.
Qed.

Lemma empty_aggregates_are_zero_witness :
  get_summary "2024-01-02" empty_db = mkSummary 0 0 0.
Proof.
  destruct (empty_aggregates_are_zero "2024-01-02" empty_db) as (He & Hi & Ht & _).
  unfold get_summary in *. cbn [todayExpense iGet theyGet] in *.
  rewrite He, Hi, Ht; [reflexivity | | | ]; intros x [].
Defined.

(** ** lastTransactionDate (C9) *)

Lemma handle_keeps_ids fk io rq d n c :
  nth_error (customers d) n = Some c ->
  exists c', nth_error (customers (snd (handle fk io rq d))) n = Some c' /\
             Customer.id c' = Customer.id c.
Proof.
  intros Hn. destruct rq as [b|b|b]; cbn [handle].
  - destruct (post_customers_cases io b d) as [(e & ->)|(nm & _ & _ & ->)];
      cbn [snd customers]; [eauto|].
    exists c. split; [|reflexivity].
    rewrite nth_error_app1; [exact Hn|]. apply nth_error_Some. congruence.
  - destruct (post_transactions_cases fk io b d)
      as [(e & ->)|(ty & a & dt & _ & _ & _ & _ & _ & ->)];
      cbn [snd customers]; [eauto|].
    destruct (Transaction.b_customerId b) as [cid|]; [|eauto].
    destruct (truthy (Some cid)); [|eauto].
    unfold credited. rewrite nth_error_map, Hn. cbn [option_map].
    eexists. split; [reflexivity|]. destruct (sql_eq _ _); reflexivity.
  - destruct (post_reminders_cases fk io b d)
      as [(e & ->)|(tl & dt & ty & _ & _ & _ & ->)]; cbn [snd customers]; eauto.
Qed.

Lemma post_transactions_dates fk io b d d' n c :
  post_transactions fk io b d = (inr 201%nat, d') ->
  truthy (Transaction.b_customerId b) = true ->
  nth_error (customers d) n = Some c ->
  sql_eq (Customer.id c) (Transaction.b_customerId b) = true ->
  exists c', nth_error (customers d') n = Some c' /\
             Customer.id c' = Customer.id c /\
             Customer.lastTransactionDate c' = Transaction.b_date b.
Proof.
  intros Hp Ht Hn He.
  destruct (post_transactions_cases fk io b d)
    as [(e & H)|(ty & a & dt & _ & _ & Hdt & _ & _ & H)]; rewrite H in Hp.
  - discriminate Hp.
  - inversion Hp; subst d'; clear Hp. cbn [customers].
    destruct (Transaction.b_customerId b) as [cid|]; [|discriminate Ht].
    simpl in Ht. rewrite Ht. unfold credited.
    rewrite nth_error_map, Hn. cbn [option_map].
    rewrite He. eexists. split; [reflexivity|]. split; [reflexivity|].
    cbn. now rewrite Hdt.
Qed.

(** C9 as stated fails for the customerId that is the empty string: the
    transaction for the stored customer "" succeeds, and the customer's
    lastTransactionDate is still null, not the date of the request. *)
Lemma empty_customerId_leaves_date_null :
  fst (post_transactions true no_io
         (tx "t1" "GIVE_CREDIT" 5 "2024-01-02" (Some "")) db_shop) = inr 201%nat /\
  map (fun c => (Customer.id c, Customer.lastTransactionDate c))
      (customers (snd (post_transactions true no_io
                         (tx "t1" "GIVE_CREDIT" 5 "2024-01-02" (Some "")) db_shop)))
  = [(Some "", None)].
Proof. split; reflexivity. Qed.

(** C9, amended. A customer is created with lastTransactionDate null; a
    request that is not a transaction whose customerId is the customer's
    id, and any transaction whose customerId is the empty string, leaves
    the customer's row as it is; a successful transaction request whose
    customerId is the customer's id and not the empty string sets
    lastTransactionDate to the date of the request, whatever its type (so
    also for EXPENSE and other zero-delta types); and of two successful
    requests it is the later committed one whose date stays, whatever the
    two dates are. *)
Theorem lastTransactionDate_is_last_write :
  (forall io b d d',
     post_customers io b d = (inr 201%nat, d') ->
     exists c, customers d' = (customers d ++ [c])%list /\
               Customer.id c = Customer.b_id b /\
               Customer.lastTransactionDate c = None) /\
  (forall fk io rq d n c,
     nth_error (customers d) n = Some c ->
     (forall b cid, rq = POST_transactions b ->
        Transaction.b_customerId b = Some cid ->
        cid = "" \/ Customer.id c <> Some cid) ->
     nth_error (customers (snd (handle fk io rq d))) n = Some c) /\
  (forall fk io b d d' n c cid,
     post_transactions fk io b d = (inr 201%nat, d') ->
     Transaction.b_customerId b = Some cid ->
     cid <> "" ->
     nth_error (customers d) n = Some c ->
     Customer.id c = Some cid ->
     exists c', nth_error (customers d') n = Some c' /\
                Customer.id c' = Customer.id c /\
                Customer.lastTransactionDate c' = Transaction.b_date b) /\
  (forall fk io1 io2 b1 b2 d d1 d2 n c cid,
     post_transactions fk io1 b1 d = (inr 201%nat, d1) ->
     post_transactions fk io2 b2 d1 = (inr 201%nat, d2) ->
     Transaction.b_customerId b2 = Some cid ->
     cid <> "" ->
     nth_error (customers d) n = Some c ->
     Customer.id c = Some cid ->
     exists c', nth_error (customers d2) n = Some c' /\
                Customer.id c' = Customer.id c /\
                Customer.lastTransactionDate c' = Transaction.b_date b2).
Proof.
  assert (Hmatch : forall (c : Customer.row) cid,
            Customer.id c = Some cid -> sql_eq (Customer.id c) (Some cid) = true).
  { intros c cid E. rewrite E. simpl. apply String.eqb_refl. }
  split; [|split; [|split]].
  - intros io b d d' Hp.
    destruct (post_customers_cases io b d) as [(e & H)|(nm & _ & _ & H)];
      rewrite H in Hp; [discriminate Hp|].
    inversion Hp; subst d'. eexists. split; [reflexivity|]. split; reflexivity.
  - intros fk io rq d n c Hn Hrq. destruct rq as [b|b|b]; cbn [handle].
    + destruct (post_customers_cases io b d) as [(e & ->)|(nm & _ & _ & ->)];
        cbn [snd customers]; [exact Hn|].
      rewrite nth_error_app1; [exact Hn|]. apply nth_error_Some. congruence.
    + specialize (Hrq b).
      destruct (post_transactions_cases fk io b d)
        as [(e & ->)|(ty & a & dt & _ & _ & _ & _ & _ & ->)];
        cbn [snd customers]; [exact Hn|].
      destruct (Transaction.b_customerId b) as [cid|]; [|exact Hn].
      destruct (truthy (Some cid)) eqn:Ht; [|exact Hn].
      unfold credited. rewrite nth_error_map, Hn. cbn [option_map].
      destruct (Hrq cid eq_refl eq_refl) as [->|Hne]; [discriminate Ht|].
      destruct (sql_eq (Customer.id c) (Some cid)) eqn:E; [|reflexivity].
      exfalso. apply Hne. apply sql_eq_true in E.
      destruct E as (k & E1 & E2). congruence.
    + destruct (post_reminders_cases fk io b d)
        as [(e & ->)|(tl & dt & ty & _ & _ & _ & ->)]; exact Hn.
  - intros fk io b d d' n c cid Hp Hc Hne Hn Hid.
    apply (post_transactions_dates fk io b d d' n c Hp); rewrite ?Hc; auto.
    now apply truthy_nonempty.
  - intros fk io1 io2 b1 b2 d d1 d2 n c cid H1 H2 Hc Hne Hn Hid.
    destruct (handle_keeps_ids fk io1 (POST_transactions b1) d n c Hn)
      as (c1 & Hn1 & Hid1).
    cbn [handle] in Hn1. rewrite H1 in Hn1. cbn [snd] in Hn1.
    assert (He : sql_eq (Customer.id c1) (Transaction.b_customerId b2) = true).
    { rewrite Hc. apply Hmatch. congruence. }
    assert (Ht : truthy (Transaction.b_customerId b2) = true).
    { rewrite Hc. now apply truthy_nonempty. }
    destruct (post_transactions_dates fk io2 b2 d1 d2 n c1 H2 Ht Hn1 He)
      as (c' & Hn' & Hid' & Hd').
    exists c'. split; [exact Hn'|]. split; [congruence | exact Hd'].
Qed.

Lemma lastTransactionDate_is_last_write_witness :
  (exists c', nth_error (customers db_alice_expense) 0 = Some c' /\
              Customer.id c' = Some "c1" /\
              Customer.lastTransactionDate c' = Some "2024-03-01") /\
  (exists c', nth_error (customers db_alice_backdated) 0 = Some c' /\
              Customer.id c' = Some "c1" /\
              Customer.lastTransactionDate c' = Some "2023-12-31").
Proof.
  destruct lastTransactionDate_is_last_write as (_ & _ & Hw & Hl).
  split.
  - apply (Hw true no_io (tx "t1" "EXPENSE" 9 "2024-03-01" (Some "c1"))
              db_alice db_alice_expense 0%nat alice "c1");
      try reflexivity; discriminate.
  - apply (Hl true no_io no_io
              (tx "t1" "EXPENSE" 9 "2024-03-01" (Some "c1"))
              (tx "t2" "PAYMENT_MADE" 4 "2023-12-31" (Some "c1"))
              db_alice db_alice_expense db_alice_backdated 0%nat alice "c1");
      try reflexivity; discriminate.
Defined.

(** ** Reminders (C10) *)

Lemma handle_reminders fk io rq d :
  exists extra,
    reminders (snd (handle fk io rq d)) = (reminders d ++ extra)%list /\
    Forall (fun r => Reminder.status r = Some "UPCOMING") extra.
Proof.
  destruct rq as [b|b|b]; cbn [handle].
  - exists []. rewrite app_nil_r. split; [|constructor].
    destruct (post_customers_cases io b d) as [(e & ->)|(nm & _ & _ & ->)];
      reflexivity.
  - exists []. rewrite app_nil_r. split; [|constructor].
    destruct (post_transactions_cases fk io b d)
      as [(e & ->)|(ty & a & dt & _ & _ & _ & _ & _ & ->)]; reflexivity.
  - destruct (post_reminders_cases fk io b d)
      as [(e & ->)|(tl & dt & ty & _ & _ & _ & ->)]; cbn [snd reminders].
    + exists []. rewrite app_nil_r. split; [reflexivity | constructor].
    + eexists. split; [reflexivity|]. repeat constructor.
Qed.

Lemma run_reminders fk evs : forall d,
  Forall (fun r => Reminder.status r = Some "UPCOMING") (reminders d) ->
  Forall (fun r => Reminder.status r = Some "UPCOMING") (reminders (run fk evs d)).
Proof.
  induction evs as [|[rq io] evs IH]; intros d Hd; cbn [run]; [exact Hd|].
  apply IH. destruct (handle_reminders fk io rq d) as (extra & -> & Hx).
  apply Forall_app. now split.
Qed.

(** C10. A reminder created through the create-reminder request is stored
    with status 'UPCOMING' (the INSERT names no status, the column default
    applies); no request changes a stored reminder; so in every store the
    server reaches from the empty one every reminder has status 'UPCOMING'. *)
Theorem reminders_stay_upcoming :
  (forall fk io b d d',
     post_reminders fk io b d = (inr 201%nat, d') ->
     exists r, reminders d' = (reminders d ++ [r])%list /\
               Reminder.id r = Reminder.b_id b /\
               Reminder.status r = Some "UPCOMING") /\
  (forall fk io rq d n r,
     nth_error (reminders d) n = Some r ->
     nth_error (reminders (snd (handle fk io rq d))) n = Some r) /\
  (forall fk evs,
     Forall (fun r => Reminder.status r = Some "UPCOMING")
            (reminders (run fk evs empty_db))).
Proof.
  split; [|split].
  - intros fk io b d d' Hp.
    destruct (post_reminders_cases fk io b d)
      as [(e & H)|(tl & dt & ty & _ & _ & _ & H)]; rewrite H in Hp;
      [discriminate Hp|].
    inversion Hp; subst d'. eexists. split; [reflexivity|]. split; reflexivity.
  - intros fk io rq d n r Hn.
    destruct (handle_reminders fk io rq d) as (extra & -> & _).
    rewrite nth_error_app1; [exact Hn|]. apply nth_error_Some. congruence.
  - intros fk evs. apply run_reminders. constructor.
Qed.

Lemma reminders_stay_upcoming_witness :
  exists r,
    reminders (snd (post_reminders true no_io collect db_alice)) = [r] /\
    Reminder.id r = Some "r1" /\
    Reminder.status r = Some "UPCOMING".
Proof.
  destruct reminders_stay_upcoming as (Hnew & _ & _).
  apply (Hnew true no_io collect db_alice
              (snd (post_reminders true no_io collect db_alice))).
  reflexivity.
Defined.

(** ** ORDER BY *)

Lemma string_leb_trans (s1 s2 s3 : string) :
  String.leb s1 s2 = true -> String.leb s2 s3 = true -> String.leb s1 s3 = true.
Proof.
  unfold String.leb. revert s2 s3.
  induction s1 as [|a s1 IH]; intros [|b s2] [|c s3]; simpl; try easy.
  unfold Ascii.compare.
  destruct (N.compare_spec (N_of_ascii a) (N_of_ascii b)) as [Eab|Lab|Gab],
           (N.compare_spec (N_of_ascii b) (N_of_ascii c)) as [Ebc|Lbc|Gbc],
           (N.compare_spec (N_of_ascii a) (N_of_ascii c)) as [Eac|Lac|Gac];
    try easy; try lia; apply IH.
Qed.

Section OrderBy.
Context {A : Type} (le : A -> A -> bool).
Hypothesis le_total : forall x y, le x y = true \/ le y x = true.
Hypothesis le_trans : forall x y z, le x y = true -> le y z = true -> le x z = true.

Let R (x y : A) : Prop := le x y = true.

Lemma insert_row_perm (x : A) (l : list A) :
  Permutation (x :: l) (insert_row le x l).
Proof.
  induction l as [|y l IH]; simpl; [reflexivity|].
  destruct (le x y); [reflexivity|].
  rewrite perm_swap. now constructor.
Qed.

Lemma order_by_perm (l : list A) : Permutation l (order_by le l).
Proof.
  induction l as [|x l IH]; simpl; [constructor|].
  rewrite <- insert_row_perm. now constructor.
Qed.

Lemma insert_row_sorted (x : A) (l : list A) :
  Sorted R l -> Sorted R (insert_row le x l).
Proof.
  induction l as [|y l IH]; intros Hs; simpl.
  - repeat constructor.
  - destruct (le x y) eqn:E.
    + constructor; [exact Hs | constructor; exact E].
    + inversion Hs as [|? ? Hl Hhd]; subst.
      constructor; [now apply IH|].
      assert (Hyx : R y x) by (destruct (le_total x y); congruence).
      destruct l as [|z l]; simpl; [now constructor|].
      destruct (le x z); constructor; [exact Hyx | now inversion Hhd].
Qed.

Lemma order_by_sorted (l : list A) : StronglySorted R (order_by le l).
Proof.
  apply Sorted_StronglySorted.
  - intros x y z. apply le_trans.
  - induction l as [|x l IH]; simpl; [constructor | now apply insert_row_sorted].
Qed.
End OrderBy.

Lemma firstn_skipn_sorted {A} (R : A -> A -> Prop) (n : nat) (l : list A) :
  StronglySorted R l ->
  forall x y, In x (firstn n l) -> In y (skipn n l) -> R x y.
Proof.
  revert n. induction l as [|a l IH]; intros n Hs x y Hx Hy.
  - rewrite firstn_nil in Hx. destruct Hx.
  - destruct n as [|n]; simpl in *; [destruct Hx|].
    inversion Hs as [|? ? Hl Hall]; subst.
    destruct Hx as [<-|Hx].
    + rewrite Forall_forall in Hall. apply Hall.
      rewrite <- (firstn_skipn n l). apply in_or_app. now right.
    + now apply (IH n).
Qed.

Lemma by_name_total x y : by_name x y = true \/ by_name y x = true.
Proof. apply String.leb_total. Qed.

Lemma by_name_trans x y z :
  by_name x y = true -> by_name y z = true -> by_name x z = true.
Proof. apply string_leb_trans. Qed.

Lemma by_date_total x y : by_date x y = true \/ by_date y x = true.
Proof. apply String.leb_total. Qed.

Lemma by_date_trans x y z :
  by_date x y = true -> by_date y z = true -> by_date x z = true.
Proof. apply string_leb_trans. Qed.

Lemma by_date_desc_total x y : by_date_desc x y = true \/ by_date_desc y x = true.
Proof. apply String.leb_total. Qed.

Lemma by_date_desc_trans x y z :
  by_date_desc x y = true -> by_date_desc y z = true -> by_date_desc x z = true.
Proof. unfold by_date_desc. intros H1 H2. eapply string_leb_trans; eassumption. Qed.

(** ** The list routes *)

(** X1. [GET /api/customers] returns every customer row exactly once, and
    in the response no row comes before a row with a smaller name (byte
    order). *)
Theorem get_customers_all_by_name d :
  Permutation (customers d) (get_customers d) /\
  StronglySorted
    (fun a b => String.leb (Customer.name a) (Customer.name b) = true)
    (get_customers d).
Proof.
  split.
  - apply order_by_perm.
  - apply (order_by_sorted by_name by_name_total by_name_trans).
Qed.

(** X2. A customer that [POST /api/customers] has created is in the next
    [GET /api/customers] with the id, name, phone and type of the request,
    balance 0 and no lastTransactionDate, and every customer listed before
    is still listed. *)
Theorem created_customer_is_listed io b d d' :
  post_customers io b d = (inr 201%nat, d') ->
  (exists c,
     In c (get_customers d') /\
     Customer.id c = Customer.b_id b /\
     Some (Customer.name c) = Customer.b_name b /\
     Customer.phone c = Customer.b_phone b /\
     Customer.type c = Customer.b_type b /\
     Customer.balance c = 0 /\
     Customer.lastTransactionDate c = None) /\
  (forall c, In c (get_customers d) -> In c (get_customers d')).
Proof.
  intros Hp.
  destruct (post_customers_cases io b d) as [(e & H)|(nm & Hnm & _ & H)];
    rewrite H in Hp; [discriminate Hp|].
  inversion Hp; subst d'; clear Hp. unfold get_customers. cbn [customers]. split.
  - eexists. split.
    + apply (Permutation_in _ (order_by_perm by_name _)).
      apply in_or_app. right. left. reflexivity.
    + cbn. rewrite Hnm. repeat split.
  - intros c Hc.
    apply (Permutation_in _ (order_by_perm by_name _)).
    apply in_or_app. left.
    apply (Permutation_in _ (Permutation_sym (order_by_perm by_name _))). exact Hc.
Qed.

Lemma created_customer_is_listed_witness :
  (exists c,
     In c (get_customers (snd (post_customers no_io carol db_alice))) /\
     Customer.id c = Some "c2" /\
     Some (Customer.name c) = Some "Carol" /\
     Customer.phone c = Some "01700" /\
     Customer.type c = Some "CUSTOMER" /\
     Customer.balance c = 0 /\
     Customer.lastTransactionDate c = None) /\
  (forall c, In c (get_customers db_alice) ->
             In c (get_customers (snd (post_customers no_io carol db_alice)))).
Proof.
  apply (created_customer_is_listed no_io carol db_alice
           (snd (post_customers no_io carol db_alice))).
  reflexivity.
Defined.

Lemma StronglySorted_firstn {A} (R : A -> A -> Prop) (n : nat) (l : list A) :
  StronglySorted R l -> StronglySorted R (firstn n l).
Proof.
  revert n. induction l as [|a l IH]; intros n Hs.
  - rewrite firstn_nil. constructor.
  - destruct n as [|n]; simpl; [constructor|].
    inversion Hs as [|? ? Hl Hall]; subst. constructor; [now apply IH|].
    rewrite Forall_forall in *. intros x Hx. apply Hall.
    rewrite <- (firstn_skipn n l). apply in_or_app. now left.
Qed.

(** X3. [GET /api/transactions] returns the 50 transactions with the
    greatest dates: min(50, number of rows) rows of the table, newest first,
    and every row left out has a date no greater than the date of any row
    returned.  With at most 50 rows stored, all of them are returned. *)
Theorem get_transactions_latest_fifty d :
  List.length (get_transactions d) = Nat.min 50 (List.length (transactions d)) /\
  StronglySorted
    (fun a b => String.leb (Transaction.date b) (Transaction.date a) = true)
    (get_transactions d) /\
  (exists rest,
     Permutation (transactions d) (get_transactions d ++ rest) /\
     forall x y, In x (get_transactions d) -> In y rest ->
       String.leb (Transaction.date y) (Transaction.date x) = true) /\
  ((List.length (transactions d) <= 50)%nat ->
   Permutation (transactions d) (get_transactions d)).
Proof.
  unfold get_transactions.
  pose proof (order_by_perm by_date_desc (transactions d)) as Hperm.
  pose proof (order_by_sorted by_date_desc by_date_desc_total by_date_desc_trans
                (transactions d)) as Hsorted.
  split; [|split; [|split]].
  - rewrite length_firstn, (Permutation_length Hperm). reflexivity.
  - now apply StronglySorted_firstn.
  - exists (skipn 50 (order_by by_date_desc (transactions d))). split.
    + rewrite firstn_skipn. exact Hperm.
    + intros x y Hx Hy.
      apply (firstn_skipn_sorted _ 50 _ Hsorted x y Hx Hy).
  - intros Hlen. rewrite firstn_all2; [exact Hperm|].
    now rewrite <- (Permutation_length Hperm).
Qed.

(** X4. [GET /api/reminders] returns every reminder row exactly once, and
    in the response no row comes before a row with a smaller date. *)
Theorem get_reminders_all_by_date d :
  Permutation (reminders d) (get_reminders d) /\
  StronglySorted
    (fun a b => String.leb (Reminder.date a) (Reminder.date b) = true)
    (get_reminders d).
Proof.
  split.
  - apply order_by_perm.
  - apply (order_by_sorted by_date by_date_total by_date_trans).
Qed.

(** ** Keys and references along a run *)

Lemma non_null_app (k1 k2 : list (option string)) :
  non_null (k1 ++ k2) = (non_null k1 ++ non_null k2)%list.
Proof.
  induction k1 as [|[k|] k1 IH]; simpl; [reflexivity | now rewrite IH | exact IH].
Qed.

Lemma In_non_null (k : string) (keys : list (option string)) :
  In k (non_null keys) <-> In (Some k) keys.
Proof.
  induction keys as [|[k'|] keys IH]; simpl.
  - tauto.
  - rewrite IH. split; intros [H|H]; auto; left; congruence.
  - rewrite IH. split; [auto | intros [H|H]; [discriminate | exact H]].
Qed.

Lemma NoDup_new_key (key : option string) (keys : list (option string)) :
  NoDup (non_null keys) ->
  pk_taken key keys = false ->
  NoDup (non_null (keys ++ [key])).
Proof.
  intros Hn Hpk. rewrite non_null_app. destruct key as [k|]; simpl.
  - apply NoDup_app; [exact Hn | repeat constructor; intros [] |].
    intros a Ha [<-|[]]. apply In_non_null, pk_taken_In in Ha. congruence.
  - now rewrite app_nil_r.
Qed.

Lemma updated_ids (customerId : option string) delta dt cs :
  map Customer.id
      (match customerId with
       | Some cid => if truthy (Some cid) then credited cid delta dt cs else cs
       | None => cs
       end) = map Customer.id cs.
Proof.
  destruct customerId as [cid|]; [|reflexivity].
  destruct (truthy (Some cid)); [apply credited_ids | reflexivity].
Qed.

(** A reminder request that is answered 201 passed the key checks. *)
Lemma post_reminders_checks fk io b d d' :
  post_reminders fk io b d = (inr 201%nat, d') ->
  pk_taken (Reminder.b_id b) (map Reminder.id (reminders d)) = false /\
  fk && fk_dangling (Reminder.b_customerId b) (customers d) = false.
Proof.
  unfold_store.
  destruct (io 0%nat); [discriminate|].
  destruct (Reminder.b_title b); [|discriminate].
  destruct (Reminder.b_date b); [|discriminate].
  destruct (Reminder.b_type b); [|discriminate].
  destruct (pk_taken _ _); [discriminate|].
  destruct (fk && fk_dangling _ _); [discriminate|]. auto.
Qed.

Lemma keys_step fk io rq d :
  primary_keys_unique d -> primary_keys_unique (snd (handle fk io rq d)).
Proof.
  intros (Hc & Ht & Hr). destruct rq as [b|b|b]; cbn [handle].
  - destruct (post_customers_cases io b d) as [(e & ->)|(nm & _ & Hpk & ->)];
      [now repeat split|].
    repeat split; cbn [snd customers transactions reminders]; trivial.
    rewrite map_app. now apply NoDup_new_key.
  - destruct (post_transactions_cases fk io b d)
      as [(e & ->)|(ty & a & dt & _ & _ & _ & Hpk & _ & ->)]; [now repeat split|].
    repeat split; cbn [snd customers transactions reminders]; trivial.
    + now rewrite updated_ids.
    + rewrite map_app. now apply NoDup_new_key.
  - destruct (post_reminders fk io b d) as [[e|n] d'] eqn:Hp.
    + destruct (post_reminders_cases fk io b d)
        as [(e' & H)|(tl & dt & ty & _ & _ & _ & H)]; rewrite H in Hp;
        inversion Hp; subst; now repeat split.
    + destruct (post_reminders_cases fk io b d)
        as [(e' & H)|(tl & dt & ty & _ & _ & _ & H)]; [rewrite H in Hp; discriminate|].
      assert (n = 201%nat) by (rewrite H in Hp; now inversion Hp). subst n.
      destruct (post_reminders_checks fk io b d d' Hp) as [Hpk _].
      rewrite H in Hp. inversion Hp; subst d'.
      repeat split; cbn [snd customers transactions reminders]; trivial.
      rewrite map_app. now apply NoDup_new_key.
Qed.

Lemma references_step io rq d :
  references_resolve d -> references_resolve (snd (handle true io rq d)).
Proof.
  intros (Ht & Hr). destruct rq as [b|b|b]; cbn [handle].
  - destruct (post_customers_cases io b d) as [(e & ->)|(nm & _ & _ & ->)];
      [now split|].
    split; cbn [snd customers transactions reminders]; intros x Hx;
      apply fk_dangling_app; auto.
  - destruct (post_transactions_cases true io b d)
      as [(e & ->)|(ty & a & dt & _ & _ & _ & _ & Hfk & ->)]; [now split|].
    split; cbn [snd customers transactions reminders]; intros x Hx;
      rewrite (fk_dangling_ids _ (customers d)) by apply updated_ids; auto.
    apply in_app_or in Hx. destruct Hx as [Hx|[<-|[]]]; [auto|exact Hfk].
  - destruct (post_reminders true io b d) as [[e|n] d'] eqn:Hp.
    + destruct (post_reminders_cases true io b d)
        as [(e' & H)|(tl & dt & ty & _ & _ & _ & H)]; rewrite H in Hp;
        inversion Hp; subst; now split.
    + destruct (post_reminders_cases true io b d)
        as [(e' & H)|(tl & dt & ty & _ & _ & _ & H)]; [rewrite H in Hp; discriminate|].
      assert (n = 201%nat) by (rewrite H in Hp; now inversion Hp). subst n.
      destruct (post_reminders_checks true io b d d' Hp) as [_ Hfk].
      rewrite H in Hp. inversion Hp; subst d'.
      split; cbn [snd customers transactions reminders]; [exact Ht|].
      intros x Hx. apply in_app_or in Hx. destruct Hx as [Hx|[<-|[]]]; [auto|exact Hfk].
Qed.

Lemma keys_run fk evs : forall d,
  primary_keys_unique d -> primary_keys_unique (run fk evs d).
Proof.
  induction evs as [|[rq io] evs IH]; intros d Hd; cbn [run]; [exact Hd|].
  apply IH. now apply keys_step.
Qed.

(** X5. PRIMARY KEY holds along every run: in any store the server reaches
    from the empty one, no two customers share an id, no two transactions
    share an id and no two reminders share an id (ids that are NULL set
    aside). *)
Theorem primary_keys_stay_unique fk evs :
  primary_keys_unique (run fk evs empty_db).
Proof. apply keys_run. repeat split; constructor. Qed.

(** X6. When the store enforces its foreign keys, referential integrity
    holds along every run: in any store reached from the empty one the
    customerId of every transaction and of every reminder is NULL or the id
    of a stored customer. *)
Theorem references_stay_resolved evs :
  references_resolve (run true evs empty_db).
Proof.
  assert (H : forall d, references_resolve d -> references_resolve (run true evs d)).
  { induction evs as [|[rq io] evs IH]; intros d Hd; cbn [run]; [exact Hd|].
    apply IH. now apply references_step. }
  apply H. split; intros x [].
Qed.

(** ** The balance invariant (C2) *)






(** ** Nothing is deleted or rewritten *)

Lemma handle_log_grows fk io rq d :
  exists extra,
    transactions (snd (handle fk io rq d)) = (transactions d ++ extra)%list.
Proof.
  destruct rq as [b|b|b]; cbn [handle].
  - exists []. rewrite app_nil_r.
    destruct (post_customers_cases io b d) as [(e & ->)|(nm & _ & _ & ->)];
      reflexivity.
  - destruct (post_transactions_cases fk io b d)
      as [(e & ->)|(ty & a & dt & _ & _ & _ & _ & _ & ->)];
      cbn [snd transactions]; [exists []; now rewrite app_nil_r | eauto].
  - exists []. rewrite app_nil_r.
    destruct (post_reminders_cases fk io b d)
      as [(e & ->)|(tl & dt & ty & _ & _ & _ & ->)]; reflexivity.
Qed.

Lemma handle_keeps_customer fk io rq d n c :
  nth_error (customers d) n = Some c ->
  exists c', nth_error (customers (snd (handle fk io rq d))) n = Some c' /\
             Customer.id c' = Customer.id c /\
             Customer.name c' = Customer.name c /\
             Customer.phone c' = Customer.phone c /\
             Customer.type c' = Customer.type c.
Proof.
  intros Hn. destruct rq as [b|b|b]; cbn [handle].
  - destruct (post_customers_cases io b d) as [(e & ->)|(nm & _ & _ & ->)];
      cbn [snd customers]; [eauto 10|].
    exists c. split; [|auto 10].
    rewrite nth_error_app1; [exact Hn|]. apply nth_error_Some. congruence.
  - destruct (post_transactions_cases fk io b d)
      as [(e & ->)|(ty & a & dt & _ & _ & _ & _ & _ & ->)];
      cbn [snd customers]; [eauto 10|].
    destruct (Transaction.b_customerId b) as [cid|]; [|eauto 10].
    destruct (truthy (Some cid)); [|eauto 10].
    unfold credited. rewrite nth_error_map, Hn. cbn [option_map].
    eexists. split; [reflexivity|]. destruct (sql_eq _ _); auto 10.
  - destruct (post_reminders_cases fk io b d)
      as [(e & ->)|(tl & dt & ty & _ & _ & _ & ->)]; cbn [snd customers]; eauto 10.
Qed.

(** X7. No request deletes or rewrites history.  Along any run from any
    store the transaction log only grows at its end, its old rows untouched,
    and every customer row stays at its place with the same id, name, phone
    and type: only balance and lastTransactionDate ever change. *)
Theorem history_is_kept fk evs : forall d,
  (exists extra, transactions (run fk evs d) = (transactions d ++ extra)%list) /\
  (forall n c,
     nth_error (customers d) n = Some c ->
     exists c', nth_error (customers (run fk evs d)) n = Some c' /\
                Customer.id c' = Customer.id c /\
                Customer.name c' = Customer.name c /\
                Customer.phone c' = Customer.phone c /\
                Customer.type c' = Customer.type c).
Proof.
  induction evs as [|[rq io] evs IH]; intros d; cbn [run].
  - split; [exists []; now rewrite app_nil_r | eauto 10].
  - destruct (IH (snd (handle fk io rq d))) as [(x2 & Hlog) Hcust]. split.
    + destruct (handle_log_grows fk io rq d) as (x1 & H1).
      exists (x1 ++ x2)%list. now rewrite Hlog, H1, app_assoc.
    + intros n c Hn.
      destruct (handle_keeps_customer fk io rq d n c Hn)
        as (c1 & Hn1 & Hi1 & Hm1 & Hp1 & Ht1).
      destruct (Hcust n c1 Hn1) as (c2 & Hn2 & Hi2 & Hm2 & Hp2 & Ht2).
      exists c2. repeat split; congruence.
Qed.

(** ** Requests the store refuses *)

(** X8. [POST /api/customers] with no name, or with an id that a stored
    customer already has, throws and leaves the store as it was; with
    nothing else wrong the second is the primary-key constraint. *)
Theorem create_customer_refused io b d :
  Customer.b_name b = None \/
  (exists i, Customer.b_id b = Some i /\
             In (Some i) (map Customer.id (customers d))) ->
  exists e,
    post_customers io b d = (inl e, d) /\
    (io 0%nat = false -> Customer.b_name b <> None ->
     e = SqliteError SQLITE_CONSTRAINT_PRIMARYKEY).
Proof.
  intros H. unfold_store.
  destruct (io 0%nat); [eexists; split; [reflexivity | discriminate]|].
  destruct (Customer.b_name b) as [nm|];
    [|eexists; split; [reflexivity | congruence]].
  destruct H as [H|(i & Hi & Hin)]; [discriminate H|].
  apply pk_taken_In in Hin. rewrite Hi, Hin. eexists. split; reflexivity.
Qed.

Lemma create_customer_refused_witness :
  exists e,
    post_customers no_io bob db_alice = (inl e, db_alice) /\
    (no_io 0%nat = false -> Customer.b_name bob <> None ->
     e = SqliteError SQLITE_CONSTRAINT_PRIMARYKEY).
Proof.
  apply (create_customer_refused no_io bob db_alice).
  right. exists "c1". split; [reflexivity | left; reflexivity].
Defined.

(** X9. [POST /api/reminders] with no title, no date or no type, or with
    an id that a stored reminder already has, or (foreign keys enforced) with
    a customerId that names no customer, throws and leaves the store as it
    was. *)
Theorem create_reminder_refused fk io b d :
  Reminder.b_title b = None \/ Reminder.b_date b = None \/
  Reminder.b_type b = None \/
  (exists i, Reminder.b_id b = Some i /\
             In (Some i) (map Reminder.id (reminders d))) \/
  (fk = true /\ fk_dangling (Reminder.b_customerId b) (customers d) = true) ->
  exists e, post_reminders fk io b d = (inl e, d).
Proof.
  intros H.
  destruct (post_reminders fk io b d) as [[e|n] d'] eqn:Hp.
  - destruct (post_reminders_cases fk io b d)
      as [(e' & H')|(tl & dt & ty & _ & _ & _ & H')]; rewrite H' in Hp;
      inversion Hp; subst; eauto.
  - exfalso.
    destruct (post_reminders_cases fk io b d)
      as [(e' & H')|(tl & dt & ty & Htl & Hdt & Hty & H')];
      [rewrite H' in Hp; discriminate|].
    assert (n = 201%nat) by (rewrite H' in Hp; now inversion Hp). subst n.
    destruct (post_reminders_checks fk io b d d' Hp) as [Hpk Hfk].
    destruct H as [H|[H|[H|[(i & Hi & Hin)|(-> & Hd)]]]]; try congruence.
    + apply pk_taken_In in Hin. congruence.
    + rewrite Hd in Hfk. discriminate Hfk.
Qed.

Lemma create_reminder_refused_witness :
  exists e,
    post_reminders true no_io
      (Reminder.mkBody (Some "r1") (Some "Pay rent") (Some "2024-02-01") None
                       (Some "PAYMENT") (Some "ghost")) db_alice
    = (inl e, db_alice).
Proof.
  apply (create_reminder_refused true no_io
           (Reminder.mkBody (Some "r1") (Some "Pay rent") (Some "2024-02-01") None
                            (Some "PAYMENT") (Some "ghost")) db_alice).
  right. right. right. right. split; reflexivity.
Defined.

(** ** The summary, continued *)

Lemma summary_totals today d :
  todayExpense (get_summary today d)
  = sum_by Transaction.amount
      (filter (fun t => String.eqb (Transaction.type t) "EXPENSE"
                        && String.eqb (Transaction.date t) today)
              (transactions d)) /\
  iGet (get_summary today d)
  = sum_by (fun z => z) (filter (fun z => 0 <? z) (map Customer.balance (customers d))) /\
  theyGet (get_summary today d)
  = sum_by Z.abs (filter (fun z => z <? 0) (map Customer.balance (customers d))).
Proof.
  unfold get_summary. cbn [todayExpense iGet theyGet].
  rewrite !or_zero_sql_sum, !fold_add_map. repeat split.
  - induction (customers d) as [|c cs IH]; [reflexivity|]. cbn [filter map].
    destruct (0 <? Customer.balance c); rewrite ?sum_by_cons, IH; reflexivity.
  - induction (customers d) as [|c cs IH]; [reflexivity|]. cbn [filter map].
    destruct (Customer.balance c <? 0); rewrite ?sum_by_cons, IH; reflexivity.
Qed.

Lemma credited_balances cid delta dt cs :
  map Customer.balance (credited cid delta dt cs)
  = map (fun c => Customer.balance c
                  + if sql_eq (Customer.id c) (Some cid) then delta else 0) cs.
Proof.
  unfold credited. rewrite map_map. apply map_ext.
  intros c. destruct (sql_eq _ _); cbn; lia.
Qed.

(** X10. The two totals of the summary are never negative, and each is 0
    exactly when no customer has a balance of its sign: iGet is 0 iff no
    balance is positive, theyGet is 0 iff no balance is negative. *)
Theorem summary_totals_sign today d :
  0 <= iGet (get_summary today d) /\
  0 <= theyGet (get_summary today d) /\
  (iGet (get_summary today d) = 0 <->
   forall c, In c (customers d) -> Customer.balance c <= 0) /\
  (theyGet (get_summary today d) = 0 <->
   forall c, In c (customers d) -> 0 <= Customer.balance c).
Proof.
  destruct (summary_totals today d) as (_ & -> & ->).
  induction (customers d) as [|c cs (Hi & Ht & Hi0 & Ht0)]; cbn [map filter].
  - repeat split; try reflexivity; intros _ c [].
  - assert (Hin : forall P : Customer.row -> Prop,
              (forall x, In x (c :: cs) -> P x) <-> P c /\ (forall x, In x cs -> P x)).
    { intros P. split.
      - intros H. split; [apply H; now left | intros x Hx; apply H; now right].
      - intros [Hc Hcs] x [<-|Hx]; auto. }
    rewrite !Hin, <- Hi0, <- Ht0.
    destruct (Z.ltb_spec 0 (Customer.balance c)),
             (Z.ltb_spec (Customer.balance c) 0);
      rewrite ?sum_by_cons; repeat split; try lia; intros [? ?]; lia.
Qed.



(** X12. A transaction request without customerId (null, missing or the
    empty string), and equally one of type EXPENSE whatever its customerId,
    changes no balance: the balances column, and with it iGet and theyGet,
    are what they were, whether the request is recorded or refused. *)
Theorem no_link_or_expense_keeps_balances fk io b d today :
  truthy (Transaction.b_customerId b) = false \/
  Transaction.b_type b = Some "EXPENSE" ->
  map Customer.balance (customers (snd (post_transactions fk io b d)))
  = map Customer.balance (customers d) /\
  iGet (get_summary today (snd (post_transactions fk io b d)))
  = iGet (get_summary today d) /\
  theyGet (get_summary today (snd (post_transactions fk io b d)))
  = theyGet (get_summary today d).
Proof.
  intros H.
  assert (Hb : map Customer.balance (customers (snd (post_transactions fk io b d)))
               = map Customer.balance (customers d)).
  { destruct (post_transactions_cases fk io b d)
      as [(e & ->)|(ty & a & dt & Hty & _ & _ & _ & _ & ->)]; [reflexivity|].
    cbn [snd customers].
    destruct (Transaction.b_customerId b) as [cid|]; [|reflexivity].
    destruct (truthy (Some cid)) eqn:Ht; [|reflexivity].
    destruct H as [H|H]; [discriminate H|].
    assert (ty = "EXPENSE") by congruence. subst ty.
    rewrite credited_balances. apply map_ext. intros c.
    change (spec_delta "EXPENSE" a) with 0.
    destruct (sql_eq _ _); lia. }
  split; [exact Hb|].
  destruct (summary_totals today d) as (_ & -> & ->).
  destruct (summary_totals today (snd (post_transactions fk io b d))) as (_ & -> & ->).
  now rewrite Hb.
Qed.

Lemma no_link_or_expense_keeps_balances_witness :
  map Customer.balance
    (customers (snd (post_transactions true no_io
                       (tx "t1" "EXPENSE" 50 "2024-01-02" (Some "c1")) db_alice)))
  = map Customer.balance (customers db_alice) /\
  iGet (get_summary "2024-01-02"
          (snd (post_transactions true no_io
                  (tx "t1" "EXPENSE" 50 "2024-01-02" (Some "c1")) db_alice)))
  = iGet (get_summary "2024-01-02" db_alice) /\
  theyGet (get_summary "2024-01-02"
             (snd (post_transactions true no_io
                     (tx "t1" "EXPENSE" 50 "2024-01-02" (Some "c1")) db_alice)))
  = theyGet (get_summary "2024-01-02" db_alice).
Proof.
  apply (no_link_or_expense_keeps_balances true no_io
           (tx "t1" "EXPENSE" 50 "2024-01-02" (Some "c1")) db_alice "2024-01-02").
  right. reflexivity.
Defined.

(** ** One customer per UPDATE *)



(** ** The client's views *)

(** X16. The count in the header of the reminders tab, computed on the
    response of [GET /api/reminders], is the number of stored reminders in
    every store the server reaches from the empty one: no reminder is ever
    COMPLETED, so none is left out of the count. *)
Theorem pending_count_is_all_reminders fk evs :
  pending_reminders (get_reminders (run fk evs empty_db))
  = List.length (reminders (run fk evs empty_db)).
Proof.
  unfold pending_reminders, get_reminders.
  assert (Hup : Forall (fun r => Reminder.status r = Some "UPCOMING")
                       (reminders (run fk evs empty_db)))
    by (apply run_reminders; constructor).
  pose proof (order_by_perm by_date (reminders (run fk evs empty_db))) as Hperm.
  rewrite (Permutation_length Hperm).
  rewrite (Permutation_Forall Hperm) in Hup. clear Hperm.
  induction (order_by by_date (reminders (run fk evs empty_db))) as [|r rs IH];
    [reflexivity|].
  inversion Hup as [|? ? Hr Hrs]; subst. cbn [filter]. rewrite Hr. cbn. f_equal.
  now apply IH.
Qed.

(** ** Search *)

Lemma prefix_refl (s : string) : String.prefix s s = true.
Proof.
  induction s as [|a s IH]; [reflexivity|]. cbn.
  destruct (Ascii.ascii_dec a a); [exact IH | congruence].
Qed.

Lemma includes_refl (s : string) : includes s s = true.
Proof. destruct s; cbn [includes]; rewrite prefix_refl; reflexivity. Qed.

Lemma includes_empty (s : string) : includes s "" = true.
Proof. destruct s; reflexivity. Qed.

(** X18. With an empty search box the customers tab shows every customer:
    [filteredCustomers] with the query "" is the whole list, for any
    [toLowerCase] that maps "" to "". *)
Theorem empty_search_shows_all toLowerCase cs :
  toLowerCase "" = "" ->
  filteredCustomers toLowerCase "" cs = cs.
Proof.
  intros H0. unfold filteredCustomers. rewrite H0.
  induction cs as [|c cs IH]; [reflexivity|]. cbn [filter].
  now rewrite includes_empty, IH.
Qed.

Lemma empty_search_shows_all_witness :
  filteredCustomers lower_ascii "" (customers (run true run_give_receive empty_db))
  = customers (run true run_give_receive empty_db).
Proof.
  apply (empty_search_shows_all lower_ascii). reflexivity.
Defined.

(** X19. Searching for a customer's full name, or for a customer's full
    non-empty phone number, finds the customer, whatever [toLowerCase] does. *)
Theorem search_finds_exact_match toLowerCase q cs c :
  In c cs ->
  q = Customer.name c \/ (Customer.phone c = Some q /\ q <> "") ->
  In c (filteredCustomers toLowerCase q cs).
Proof.
  intros Hin H. unfold filteredCustomers. apply filter_In. split; [exact Hin|].
  destruct H as [->|[Hp Hq]].
  - now rewrite includes_refl.
  - rewrite Hp, includes_refl. apply String.eqb_neq in Hq. rewrite Hq.
    apply orb_true_r.
Qed.

Lemma search_finds_exact_match_witness :
  In alice (filteredCustomers lower_ascii "Alice" [alice]).
Proof.
  apply (search_finds_exact_match lower_ascii "Alice" [alice] alice).
  - left. reflexivity.
  - left. reflexivity.
Defined.

(** ** From the forms to the store *)

(** X20. The customer form posts nothing while the name is empty; with a
    name, what it posts is accepted whenever the drawn id is not the id of a
    stored customer (and no I/O fault occurs): the customer is stored with
    the form's name, phone and type and with balance 0. *)
Theorem customer_form_is_accepted io id f d :
  (NewCustomer.name f = "" -> handleAddCustomer id f = None) /\
  (NewCustomer.name f <> "" ->
   pk_taken (Some id) (map Customer.id (customers d)) = false ->
   io 0%nat = false ->
   exists b,
     handleAddCustomer id f = Some b /\
     post_customers io b d =
     (inr 201%nat,
      mkDb (customers d ++
            [Customer.mk (Some id) (NewCustomer.name f) (Some (NewCustomer.phone f))
                         0 (Some (NewCustomer.type f)) None])
           (transactions d) (reminders d))).
Proof.
  unfold handleAddCustomer. split.
  - intros ->. reflexivity.
  - intros Hn Hpk Hio. apply String.eqb_neq in Hn. rewrite Hn.
    eexists. split; [reflexivity|].
    unfold_store. cbn. now rewrite Hio, Hpk.
Qed.

Lemma customer_form_is_accepted_witness :
  exists b,
    handleAddCustomer "k3x9" (NewCustomer.mk "Dipu" "01811" "SUPPLIER") = Some b /\
    post_customers no_io b db_alice =
    (inr 201%nat,
     mkDb [alice; Customer.mk (Some "k3x9") "Dipu" (Some "01811") 0 (Some "SUPPLIER") None]
          [] []).
Proof.
  destruct (customer_form_is_accepted no_io "k3x9"
              (NewCustomer.mk "Dipu" "01811" "SUPPLIER") db_alice) as [_ H].
  apply H; [discriminate | reflexivity | reflexivity].
Defined.

(** X21. The reminder form posts nothing while the title is empty; with a
    title, what it posts carries no customerId and is accepted, with or
    without foreign keys, whenever the drawn id is not the id of a stored
    reminder (and no I/O fault occurs).  The reminder is stored UPCOMING,
    its amount NULL when the amount box is empty or not a number. *)
Theorem reminder_form_is_accepted parseFloat fk io id f d :
  (NewReminder.title f = "" -> handleAddReminder parseFloat id f = None) /\
  (NewReminder.title f <> "" ->
   pk_taken (Some id) (map Reminder.id (reminders d)) = false ->
   io 0%nat = false ->
   exists b,
     handleAddReminder parseFloat id f = Some b /\
     post_reminders fk io b d =
     (inr 201%nat,
      mkDb (customers d) (transactions d)
           (reminders d ++
            [Reminder.mk (Some id) (NewReminder.title f) (NewReminder.date f)
               (if String.eqb (NewReminder.amount f) "" then None
                else parseFloat (NewReminder.amount f))
               (NewReminder.type f) (Some "UPCOMING") None]))).
Proof.
  unfold handleAddReminder. split.
  - intros ->. reflexivity.
  - intros Hn Hpk Hio. apply String.eqb_neq in Hn. rewrite Hn.
    eexists. split; [reflexivity|].
    unfold_store. cbn. rewrite Hio, Hpk. now destruct fk.
Qed.

Lemma reminder_form_is_accepted_witness :
  exists b,
    handleAddReminder (fun _ => Some 250) "r7" 
      (NewReminder.mk "Collect from Alice" "2024-02-01" "250" "COLLECTION") = Some b /\
    post_reminders true no_io b db_alice =
    (inr 201%nat,
     mkDb [alice] []
          [Reminder.mk (Some "r7") "Collect from Alice" "2024-02-01" (Some 250)
                       "COLLECTION" (Some "UPCOMING") None]).
Proof.
  destruct (reminder_form_is_accepted (fun _ => Some 250) true no_io "r7"
              (NewReminder.mk "Collect from Alice" "2024-02-01" "250" "COLLECTION")
              db_alice) as [_ H].
  apply H; [discriminate | reflexivity | reflexivity].
Defined.

(** X22. The transaction form posts nothing while the amount box is empty
    or no type is chosen.  What it posts always has a type, a date and a
    note, so the one field the store can find missing is the amount: when
    [parseFloat] gives NaN the request is refused by the NOT NULL constraint
    and nothing is stored. *)
Theorem transaction_form_amount_must_parse parseFloat fk io id dlg f d :
  (NewTransaction.amount f = "" \/ truthy (ShowAddTransaction.type dlg) = false ->
   handleAddTransaction parseFloat id dlg f = None) /\
  (forall b,
     handleAddTransaction parseFloat id dlg f = Some b ->
     Transaction.b_type b <> None /\
     Transaction.b_date b <> None /\
     Transaction.b_note b <> None /\
     Transaction.b_amount b = parseFloat (NewTransaction.amount f) /\
     (parseFloat (NewTransaction.amount f) = None ->
      io 0%nat = false ->
      post_transactions fk io b d = (inl (SqliteError SQLITE_CONSTRAINT_NOTNULL), d))).
Proof.
  unfold handleAddTransaction. split.
  - intros [-> | ->]; [reflexivity | now rewrite orb_true_r].
  - intros b Hb.
    destruct (String.eqb (NewTransaction.amount f) ""
              || negb (truthy (ShowAddTransaction.type dlg))) eqn:G; [discriminate|].
    apply orb_false_iff in G. destruct G as [_ Gt].
    apply negb_false_iff in Gt.
    inversion Hb; subst b; clear Hb. cbn.
    destruct (ShowAddTransaction.type dlg) as [ty|]; [|discriminate Gt].
    repeat split; try discriminate.
    intros Hnan Hio. unfold_store. cbn. now rewrite Hio, Hnan.
Qed.

Lemma transaction_form_amount_must_parse_witness :
  post_transactions true no_io
    (Transaction.mkBody (Some "t5") (Some "GIVE_CREDIT") None (Some "2024-01-05")
                        (Some "") (Some "c1")) db_alice
  = (inl (SqliteError SQLITE_CONSTRAINT_NOTNULL), db_alice).
Proof.
  destruct (transaction_form_amount_must_parse (fun _ => None) true no_io "t5"
              (ShowAddTransaction.mk true (Some "GIVE_CREDIT") (Some "c1"))
              (NewTransaction.mk "12abc" "" "2024-01-05") db_alice) as [_ H].
  destruct (H _ eq_refl) as (_ & _ & _ & _ & Hrefused).
  apply Hrefused; reflexivity.
Defined.

(** ** The summary on binary64 (C7) *)

(** C7 as stated fails on the REAL column.  With the balances 1e16, -1e16
    and 1 the receivable total is the double nearest to 1e16 + 1, which is
    1e16, the payable total is 1e16, and their difference is 0, while the
    sum of the three balances is 1. *)
Lemma rounding_breaks_receivable_minus_payable :
  real_iGet [1e16; -1e16; 1]%float = 1e16%float /\
  real_theyGet [1e16; -1e16; 1]%float = 1e16%float /\
  PrimFloat.sub (real_iGet [1e16; -1e16; 1]%float)
                (real_theyGet [1e16; -1e16; 1]%float) = 0%float /\
  fold_left PrimFloat.add [1e16; -1e16; 1]%float 0%float = 1%float /\
  10000000000000000 + - 10000000000000000 + 1 = 1.
Proof. repeat split; vm_compute; reflexivity. Qed.

Lemma sum_by_abs_nonneg {A} (f : A -> Z) (l : list A) :
  0 <= sum_by (fun x => Z.abs (f x)) l.
Proof.
  induction l as [|x l IH]; [reflexivity|]. rewrite sum_by_cons. lia.
Qed.

Lemma abs_sum_by_le {A} (f : A -> Z) (l : list A) :
  Z.abs (sum_by f l) <= sum_by (fun x => Z.abs (f x)) l.
Proof.
  induction l as [|x l IH]; [reflexivity|]. rewrite !sum_by_cons. lia.
Qed.

Lemma sum_by_abs_In {A} (f : A -> Z) (l : list A) (x : A) :
  In x l -> Z.abs (f x) <= sum_by (fun y => Z.abs (f y)) l.
Proof.
  induction l as [|y l IH]; intros []; rewrite sum_by_cons.
  - subst y. pose proof (sum_by_abs_nonneg f l). lia.
  - specialize (IH H). lia.
Qed.

Lemma sum_by_ext {A} (f g : A -> Z) (l : list A) :
  (forall x, f x = g x) -> sum_by f l = sum_by g l.
Proof.
  intros H. induction l as [|x l IH]; [reflexivity|].
  now rewrite !sum_by_cons, H, IH.
Qed.

Lemma summary_totals_bounds today d :
  Z.abs (iGet (get_summary today d))
  <= sum_by (fun c => Z.abs (Customer.balance c)) (customers d) /\
  Z.abs (theyGet (get_summary today d))
  <= sum_by (fun c => Z.abs (Customer.balance c)) (customers d).
Proof.
  unfold get_summary. cbn [iGet theyGet].
  rewrite !or_zero_sql_sum, !fold_add_map.
  induction (customers d) as [|c cs [IHi IHt]]; [split; reflexivity|].
  cbn [filter]. rewrite sum_by_cons.
  destruct (0 <? Customer.balance c), (Customer.balance c <? 0);
    rewrite ?sum_by_cons; split; lia.
Qed.

Lemma sum_by_abs_filter {A} (f : A -> Z) (p : A -> bool) (l : list A) :
  sum_by (fun x => Z.abs (f x)) (filter p l) <= sum_by (fun x => Z.abs (f x)) l.
Proof.
  induction l as [|x l IH]; [reflexivity|]. cbn [filter].
  destruct (p x); rewrite !sum_by_cons; lia.
Qed.

(** Adding doubles in row order is adding integers while nothing rounds. *)
Lemma real_fold {A} (B : Z) (f : A -> Z) (l : list A) :
  exact_upto B ->
  forall acc, Z.abs acc + sum_by (fun x => Z.abs (f x)) l <= B ->
  fold_left PrimFloat.add (map (fun x => real (f x)) l) (real acc)
  = real (acc + sum_by f l).
Proof.
  intros (Hadd & _ & _).
  induction l as [|x l IH]; intros acc Hb.
  - cbn. f_equal. unfold sum_by. cbn. lia.
  - rewrite sum_by_cons in Hb. pose proof (sum_by_abs_nonneg f l) as Hpos.
    cbn [map fold_left]. rewrite Hadd by lia. rewrite IH by lia.
    f_equal. rewrite sum_by_cons. lia.
Qed.

Lemma real_total {A} (B : Z) (f : A -> Z) (l : list A) :
  exact_upto B ->
  sum_by (fun x => Z.abs (f x)) l <= B ->
  real_or_zero (real_sum (map (fun x => real (f x)) l))
  = real (or_zero (sql_sum (map f l))).
Proof.
  intros Hex Hb. rewrite or_zero_sql_sum, fold_add_map.
  destruct l as [|x l]; [reflexivity|].
  assert (Hf : fold_left PrimFloat.add (map (fun y => real (f y)) (x :: l)) (real 0)
               = real (0 + sum_by f (x :: l)))
    by (apply (real_fold B f (x :: l) Hex 0); cbn [Z.abs]; lia).
  change (real 0) with 0%float in Hf. rewrite Z.add_0_l in Hf.
  unfold real_sum. cbn [map] in *. rewrite Hf. unfold real_or_zero.
  destruct Hex as (_ & _ & Hcmp).
  pose proof (abs_sum_by_le f (x :: l)) as Hle.
  destruct (Hcmp (sum_by f (x :: l))) as (_ & _ & _ & E0 & Err); [lia|].
  rewrite E0, Err. cbn [negb]. rewrite orb_false_r.
  destruct (sum_by f (x :: l) =? 0) eqn:E; [|reflexivity].
  apply Z.eqb_eq in E. rewrite E. reflexivity.
Qed.

Lemma real_filter_positive (B : Z) (cs : list Customer.row) :
  exact_upto B ->
  (forall c, In c cs -> Z.abs (Customer.balance c) <= B) ->
  filter (fun b => PrimFloat.ltb 0%float b)
         (map (fun c => real (Customer.balance c)) cs)
  = map (fun c => real (Customer.balance c))
        (filter (fun c => 0 <? Customer.balance c) cs).
Proof.
  intros (_ & _ & Hcmp) Hb.
  induction cs as [|c cs IH]; [reflexivity|]. cbn [map filter].
  destruct (Hcmp (Customer.balance c)) as (_ & E & _); [apply Hb; now left|].
  rewrite E, IH by (intros x Hx; apply Hb; now right).
  destruct (0 <? Customer.balance c); reflexivity.
Qed.

Lemma real_filter_negative (B : Z) (cs : list Customer.row) :
  exact_upto B ->
  (forall c, In c cs -> Z.abs (Customer.balance c) <= B) ->
  map PrimFloat.abs
      (filter (fun b => PrimFloat.ltb b 0%float)
              (map (fun c => real (Customer.balance c)) cs))
  = map (fun c => real (Z.abs (Customer.balance c)))
        (filter (fun c => Customer.balance c <? 0) cs).
Proof.
  intros (_ & _ & Hcmp) Hb.
  induction cs as [|c cs IH]; [reflexivity|]. cbn [map filter].
  destruct (Hcmp (Customer.balance c)) as (Eabs & _ & E & _); [apply Hb; now left|].
  rewrite E.
  destruct (Customer.balance c <? 0); cbn [map];
    rewrite IH by (intros x Hx; apply Hb; now right); [|reflexivity].
  now rewrite Eabs.
Qed.

Ltac upto_4 z :=
  let H := fresh in
  assert (H : z = -4 \/ z = -3 \/ z = -2 \/ z = -1 \/ z = 0 \/
              z = 1 \/ z = 2 \/ z = 3 \/ z = 4) by lia;
  repeat (destruct H as [H|H]); subst z.

(** The doubles are exact on the whole numbers up to 4, by evaluation. *)
Lemma exact_upto_4 : exact_upto 4.
Proof.
  repeat split.
  - intros a b Ha Hb _. upto_4 a; upto_4 b; vm_compute; reflexivity.
  - intros a b Ha Hb _. upto_4 a; upto_4 b; vm_compute; reflexivity.
  - upto_4 a; vm_compute; reflexivity.
  - upto_4 a; vm_compute; reflexivity.
  - upto_4 a; vm_compute; reflexivity.
  - upto_4 a; vm_compute; reflexivity.
  - upto_4 a; vm_compute; reflexivity.
Qed.

(** C7, amended. For any population of customers whose balances are whole
    numbers that binary64 adds without rounding (the absolute balances sum
    to at most a bound up to which the arithmetic of doubles is exact), the
    receivable and payable totals computed on the doubles are those of the
    exact sums, and the receivable total minus the payable total equals the
    sum of all customers' balances. *)
Theorem receivable_minus_payable today d B :
  exact_upto B ->
  sum_by (fun c => Z.abs (Customer.balance c)) (customers d) <= B ->
  real_iGet (map (fun c => real (Customer.balance c)) (customers d))
  = real (iGet (get_summary today d)) /\
  real_theyGet (map (fun c => real (Customer.balance c)) (customers d))
  = real (theyGet (get_summary today d)) /\
  PrimFloat.sub
    (real_iGet (map (fun c => real (Customer.balance c)) (customers d)))
    (real_theyGet (map (fun c => real (Customer.balance c)) (customers d)))
  = real (sum_by Customer.balance (customers d)).
Proof.
  intros Hex Hb.
  assert (Hall : forall c, In c (customers d) -> Z.abs (Customer.balance c) <= B).
  { intros c Hc. pose proof (sum_by_abs_In Customer.balance _ c Hc). lia. }
  assert (Hi : real_iGet (map (fun c => real (Customer.balance c)) (customers d))
               = real (iGet (get_summary today d))).
  { unfold real_iGet, get_summary. cbn [iGet].
    rewrite (real_filter_positive B _ Hex Hall).
    apply (real_total B Customer.balance _ Hex).
    pose proof (sum_by_abs_filter Customer.balance
                  (fun c => 0 <? Customer.balance c) (customers d)). lia. }
  assert (Ht : real_theyGet (map (fun c => real (Customer.balance c)) (customers d))
               = real (theyGet (get_summary today d))).
  { unfold real_theyGet, get_summary. cbn [theyGet].
    rewrite (real_filter_negative B _ Hex Hall).
    apply (real_total B (fun c => Z.abs (Customer.balance c)) _ Hex).
    pose proof (sum_by_abs_filter Customer.balance
                  (fun c => Customer.balance c <? 0) (customers d)) as Hf.
    erewrite sum_by_ext; [exact (Z.le_trans _ _ _ Hf Hb)|].
    intros c. cbn. lia. }
  split; [exact Hi|]. split; [exact Ht|].
  rewrite Hi, Ht.
  pose proof (exact_receivable_minus_payable today d) as Hnet.
  destruct (summary_totals_bounds today d) as (Hbi & Hbt).
  destruct Hex as (_ & Hsub & _).
  rewrite Hsub; [now rewrite Hnet | lia | lia |].
  rewrite Hnet. pose proof (abs_sum_by_le Customer.balance (customers d)). lia.
Qed.

Lemma receivable_minus_payable_witness :
  real_iGet (map (fun c => real (Customer.balance c))
                 (customers (run true run_small empty_db)))
  = real (iGet (get_summary "2024-01-04" (run true run_small empty_db))) /\
  real_theyGet (map (fun c => real (Customer.balance c))
                    (customers (run true run_small empty_db)))
  = real (theyGet (get_summary "2024-01-04" (run true run_small empty_db))) /\
  PrimFloat.sub
    (real_iGet (map (fun c => real (Customer.balance c))
                    (customers (run true run_small empty_db))))
    (real_theyGet (map (fun c => real (Customer.balance c))
                       (customers (run true run_small empty_db))))
  = real (sum_by Customer.balance (customers (run true run_small empty_db))).
Proof.
  apply (receivable_minus_payable "2024-01-04" (run true run_small empty_db) 4).
  - exact exact_upto_4.
  - vm_compute. discriminate.
Defined.
